(** * osml10n transcription daemon: protocol, country resolution, dispatch

    A shallow embedding of [transcription-daemon/geo-transcript-srv.py].
    Python [str] values are sequences of code points, [bytes] values are
    sequences of octets, exceptions are an explicit [Raise] result, and the
    effects of a connection handler (bytes written to the peer, lines written
    to standard error, calls to the country resolver) are threaded through a
    small state-and-exception monad.  Verbose tracing to standard output
    ([vout]) carries no behaviour and is left out. *)

From Stdlib Require Import ZArith List Bool String Ascii Lia.
Import ListNotations.
Open Scope Z_scope.

(** ** Python values *)

(** A Python [str]: the list of its code points ([ord] of each element). *)
Definition pystr := list Z.

(** A Python [bytes]/socket stream: octets, each in [0, 256). *)
Definition pybytes := list Z.

(** An ASCII literal as a Python [str]. *)
Definition py (s : string) : pystr :=
  map (fun a => Z.of_N (N_of_ascii a)) (list_ascii_of_string s).

Definition pystr_eqb (a b : pystr) : bool :=
  if list_eq_dec Z.eq_dec a b then true else false.

Inductive pyval :=
| PyNone
| PyInt (z : Z)
| PyStr (s : pystr)
| PyIntTuple (items : list Z).

(** Python's [==] on the values above: values of different types are
    never equal (a tuple is never equal to an [int]). *)
Definition py_eqb (a b : pyval) : bool :=
  match a, b with
  | PyNone, PyNone => true
  | PyInt x, PyInt y => x =? y
  | PyStr x, PyStr y => pystr_eqb x y
  | PyIntTuple x, PyIntTuple y => if list_eq_dec Z.eq_dec x y then true else false
  | _, _ => false
  end.

(** [isinstance(v, str)] *)
Definition isinstance_str (v : pyval) : bool :=
  match v with PyStr _ => true | _ => false end.

(** ** Exceptions *)

Inductive exn :=
| ValueError
| IndexError
| UnicodeDecodeError
| UnicodeEncodeError
| StructError
| IncompleteReadError
| SystemExit
| EngineError (tag : Z).

Inductive result (A : Type) :=
| Ok (a : A)
| Raise (e : exn).
Arguments Ok {A} a.
Arguments Raise {A} e.

Definition rbind {A B} (r : result A) (k : A -> result B) : result B :=
  match r with
  | Ok a => k a
  | Raise e => Raise e
  end.

(** ** String helpers of the Python runtime *)

Fixpoint dropwhile {A} (p : A -> bool) (l : list A) : list A :=
  match l with
  | [] => []
  | x :: r => if p x then dropwhile p r else l
  end.

Definition mem_cp (c : Z) (chars : pystr) : bool := existsb (Z.eqb c) chars.

(** [str.isspace] on one code point (CPython's [_PyUnicode_IsWhitespace]). *)
Definition py_isspace (c : Z) : bool :=
  ((0x09 <=? c) && (c <=? 0x0D)) || ((0x1C <=? c) && (c <=? 0x20))
  || (c =? 0x85) || (c =? 0xA0) || (c =? 0x1680)
  || ((0x2000 <=? c) && (c <=? 0x200A))
  || (c =? 0x2028) || (c =? 0x2029) || (c =? 0x202F) || (c =? 0x205F)
  || (c =? 0x3000).

(** [s.rstrip(chars)]: drops every trailing code point that occurs in
    [chars] (a set of code points, not a suffix). *)
Definition py_rstrip_chars (chars s : pystr) : pystr :=
  rev (dropwhile (fun c => mem_cp c chars) (rev s)).

(** [s.rstrip()], [s.lstrip()], [s.strip()] *)
Definition py_rstrip (s : pystr) : pystr := rev (dropwhile py_isspace (rev s)).
Definition py_lstrip (s : pystr) : pystr := dropwhile py_isspace s.
Definition py_strip (s : pystr) : pystr := py_lstrip (py_rstrip s).

(** [s.split(sep, maxsplit)] for a one-code-point separator: at most
    [maxsplit] cuts, from the left; the result is never empty. *)
Fixpoint py_split (sep : Z) (maxsplit : nat) (s : pystr) : list pystr :=
  match maxsplit with
  | O => [s]
  | S m =>
      match s with
      | [] => [[]]
      | c :: r =>
          if c =? sep then [] :: py_split sep m r
          else match py_split sep maxsplit r with
               | [] => [[c]]
               | h :: t => (c :: h) :: t
               end
      end
  end.

(** ** UTF-8 ([str.encode('utf-8')], [bytes.decode('utf-8')]) *)

Definition is_surrogate (c : Z) : bool := (0xD800 <=? c) && (c <=? 0xDFFF).

Definition utf8_encode_cp (c : Z) : option pybytes :=
  if c <? 0 then None
  else if c <? 0x80 then Some [c]
  else if c <? 0x800 then Some [0xC0 + c / 64; 0x80 + c mod 64]
  else if c <? 0x10000 then
    if is_surrogate c then None
    else Some [0xE0 + c / 4096; 0x80 + (c / 64) mod 64; 0x80 + c mod 64]
  else if c <? 0x110000 then
    Some [0xF0 + c / 262144; 0x80 + (c / 4096) mod 64;
          0x80 + (c / 64) mod 64; 0x80 + c mod 64]
  else None.

Fixpoint utf8_encode (s : pystr) : option pybytes :=
  match s with
  | [] => Some []
  | c :: r =>
      match utf8_encode_cp c, utf8_encode r with
      | Some bs, Some br => Some (bs ++ br)
      | _, _ => None
      end
  end.

Definition is_cont (b : Z) : bool := (0x80 <=? b) && (b <=? 0xBF).

Definition cons_cp (c : Z) (r : option pystr) : option pystr :=
  option_map (cons c) r.

(** The strict decoder: no overlong forms, no surrogates, nothing above
    U+10FFFF, no truncated sequence. *)
Fixpoint utf8_decode (bs : pybytes) : option pystr :=
  match bs with
  | [] => Some []
  | b0 :: r0 =>
      if (0 <=? b0) && (b0 <? 0x80) then cons_cp b0 (utf8_decode r0)
      else if (0xC2 <=? b0) && (b0 <=? 0xDF) then
        match r0 with
        | b1 :: r1 =>
            if is_cont b1
            then cons_cp ((b0 - 0xC0) * 64 + (b1 - 0x80)) (utf8_decode r1)
            else None
        | _ => None
        end
      else if (0xE0 <=? b0) && (b0 <=? 0xEF) then
        match r0 with
        | b1 :: b2 :: r2 =>
            let c := (b0 - 0xE0) * 4096 + (b1 - 0x80) * 64 + (b2 - 0x80) in
            if is_cont b1 && is_cont b2 && (0x800 <=? c) && negb (is_surrogate c)
            then cons_cp c (utf8_decode r2)
            else None
        | _ => None
        end
      else if (0xF0 <=? b0) && (b0 <=? 0xF4) then
        match r0 with
        | b1 :: b2 :: b3 :: r3 =>
            let c := (b0 - 0xF0) * 262144 + (b1 - 0x80) * 4096
                     + (b2 - 0x80) * 64 + (b3 - 0x80) in
            if is_cont b1 && is_cont b2 && is_cont b3
               && (0x10000 <=? c) && (c <? 0x110000)
            then cons_cp c (utf8_decode r3)
            else None
        | _ => None
        end
      else None
  end.

(** ** [struct.pack('I', n)] and [struct.unpack('I', b)] *)

(** Format ['I'] without a byte-order prefix uses the byte order of the
    machine the daemon runs on. *)
Inductive byteorder := LittleEndian | BigEndian.

Definition le_bytes (n : Z) : pybytes :=
  [n mod 256; (n / 256) mod 256; (n / 65536) mod 256; (n / 16777216) mod 256].

Definition le_value (bs : pybytes) : option Z :=
  match bs with
  | [b0; b1; b2; b3] => Some (b0 + 256 * b1 + 65536 * b2 + 16777216 * b3)
  | _ => None
  end.

Definition in_order (o : byteorder) (bs : pybytes) : pybytes :=
  match o with
  | LittleEndian => bs
  | BigEndian => rev bs
  end.

(** [struct.pack('I', n)]: [struct.error] outside [0, 2^32). *)
Definition struct_pack_I (o : byteorder) (n : Z) : result pybytes :=
  if (0 <=? n) && (n <? 4294967296) then Ok (in_order o (le_bytes n))
  else Raise StructError.

(** [struct.unpack('I', b)]: always a tuple, here of one integer. *)
Definition struct_unpack_I (o : byteorder) (bs : pybytes) : result pyval :=
  match le_value (in_order o bs) with
  | Some n => Ok (PyIntTuple [n])
  | None => Raise StructError
  end.

(** [length[0]] *)
Definition py_index0 (v : pyval) : result Z :=
  match v with
  | PyIntTuple (n :: _) => Ok n
  | PyIntTuple [] => Raise IndexError
  | _ => Raise ValueError
  end.

(** ** The stream reader *)

(** The reader is the sequence of octets the peer sends before it closes.
    [reader.readexactly(n)] returns the next [n] octets, or raises
    [IncompleteReadError] when the peer closes first. *)
Definition readexactly (n : Z) (reader : pybytes) : result pybytes * pybytes :=
  if (Z.of_nat (List.length reader) <? n)
  then (Raise IncompleteReadError, [])
  else (Ok (firstn (Z.to_nat n) reader), skipn (Z.to_nat n) reader).

(** ** External collaborators

    Everything the daemon imports and only calls: the Unicode character
    database, the transliteration engines, the byte order of the host and
    the country grid behind [Coord2Country].  Each engine either returns a
    [str] or raises. *)
Record collaborators := {
  (** byte order of [struct]'s native format *)
  native_order : byteorder;
  (** [unicodedata.name(c)]; [None] where it raises [ValueError] *)
  unicodedata_name : Z -> option string;
  (** [tltk.nlp.th2roman] *)
  th2roman : pystr -> result pystr;
  (** [pinyin_jyutping_sentence.jyutping(st, spaces=True)] *)
  jyutping : pystr -> result pystr;
  (** [kakasi.convert]: the ['hepburn'] entry of each word *)
  kakasi_convert : pystr -> result (list pystr);
  (** [str.capitalize] *)
  py_capitalize : pystr -> pystr;
  (** ICU [Any-Latin] transliterator *)
  icutr : pystr -> result pystr;
  (** [unicodedata.normalize('NFC', _)] *)
  normalize_NFC : pystr -> pystr;
  (** [co2c.ready] *)
  co2c_ready : bool;
  (** [self.co2c.getCountry(lon, lat)] of the configured backend; the
      PostgreSQL backend turns a failed query into [SystemExit] *)
  backend_getCountry : pystr -> pystr -> result pystr
}.

(** ** Effects of a connection handler *)

Inductive stderr_line :=
| TltkError (st : pystr)
| JyutpingError (st : pystr)
| NonStringReply (id cc name : pystr) (reply : pyval)
| RequestError (id : pystr) (err : exn).

Record world := mkWorld {
  (** octets written to the peer, oldest first *)
  writer : pybytes;
  (** lines written to [sys.stderr] *)
  stderr : list stderr_line;
  (** arguments of the calls to [co2c.getCountry] *)
  resolver_calls : list (pystr * pystr);
  (** arguments of the queries run on the country grid *)
  backend_queries : list (pystr * pystr)
}.

Definition world0 : world := mkWorld [] [] [] [].

(** State and exceptions: an exception keeps the effects made before it. *)
Definition M (A : Type) := world -> result A * world.

Definition ret {A} (a : A) : M A := fun w => (Ok a, w).

Definition bind {A B} (m : M A) (k : A -> M B) : M B :=
  fun w => match m w with
           | (Ok a, w') => k a w'
           | (Raise e, w') => (Raise e, w')
           end.

Definition lift {A} (r : result A) : M A := fun w => (r, w).

(** [try: body  except BaseException as err: handler(err)] *)
Definition try_except {A} (body : M A) (handler : exn -> M A) : M A :=
  fun w => match body w with
           | (Ok a, w') => (Ok a, w')
           | (Raise e, w') => handler e w'
           end.

Declare Scope monad_scope.
Delimit Scope monad_scope with monad.
Notation "x <- m ;; k" := (bind m (fun x => k))
  (at level 61, m at next level, right associativity) : monad_scope.
Notation "m ;;; k" := (bind m (fun _ => k))
  (at level 61, right associativity) : monad_scope.
Open Scope monad_scope.

(** The world after one more line on standard error, after more octets to
    the peer, after one more call to the resolver, after one more query. *)
Definition logged (l : stderr_line) (w : world) : world :=
  mkWorld (writer w) (stderr w ++ [l]) (resolver_calls w) (backend_queries w).

Definition wrote (bs : pybytes) (w : world) : world :=
  mkWorld (writer w ++ bs) (stderr w) (resolver_calls w) (backend_queries w).

Definition resolver_called (lon lat : pystr) (w : world) : world :=
  mkWorld (writer w) (stderr w) (resolver_calls w ++ [(lon, lat)]) (backend_queries w).

Definition backend_queried (lon lat : pystr) (w : world) : world :=
  mkWorld (writer w) (stderr w) (resolver_calls w) (backend_queries w ++ [(lon, lat)]).

Definition stderr_write (l : stderr_line) : M unit :=
  fun w => (Ok tt, logged l w).

Definition writer_write (bs : pybytes) : M unit :=
  fun w => (Ok tt, wrote bs w).

Definition note_resolver_call (lon lat : pystr) : M unit :=
  fun w => (Ok tt, resolver_called lon lat w).

Definition note_backend_query (lon lat : pystr) : M unit :=
  fun w => (Ok tt, backend_queried lon lat w).

(** ** Script classification *)

(** [contains_thai] *)
Definition contains_thai (text : pystr) : bool :=
  existsb (fun c => (c >? 0x0E00) && (c <? 0x0E7F)) text.

(** [contains_cjk] *)
Definition contains_cjk (text : pystr) : bool :=
  existsb (fun c => (c >? 0x4e00) && (c <? 0x9FFF)) text.

(** [name.split(' ')[0]] on a character name *)
Fixpoint first_word (s : string) : string :=
  match s with
  | EmptyString => EmptyString
  | String a r => if Ascii.eqb a " " then EmptyString else String a (first_word r)
  end.

Section Daemon.

Variable env : collaborators.

(** [unicodedata.name(c).split(' ')[0]] *)
Definition alphabet_of (c : Z) : result string :=
  match unicodedata_name env c with
  | Some n => Ok (first_word n)
  | None => Raise ValueError
  end.

(** [unicodedata.name(st[0]).split(' ')[0]] *)
Definition alphabet_of_first (st : pystr) : result string :=
  match st with
  | [] => Raise IndexError
  | c :: _ => alphabet_of c
  end.

(** The [for c in str[1:]] loop of [split_by_alphabet]. *)
Fixpoint split_loop (rest : pystr) (strlist : list pystr) (target : pystr)
         (oldalphabet : string) : result (list pystr) :=
  match rest with
  | [] => Ok (strlist ++ [target])
  | c :: r =>
      rbind (alphabet_of c) (fun alphabet =>
        if String.eqb alphabet oldalphabet
        then split_loop r strlist (target ++ [c]) alphabet
        else split_loop r (strlist ++ [target]) [c] alphabet)
  end.

Definition split_by_alphabet (str : pystr) : result (list pystr) :=
  match str with
  | [] => Raise IndexError
  | c0 :: rest =>
      rbind (alphabet_of c0) (fun oldalphabet =>
        split_loop rest [] [c0] oldalphabet)
  end.

(** The [for st in stlist] loop of [thai_transcript]. *)
Fixpoint thai_loop (stlist : list pystr) (latin : pystr) : M pyval :=
  match stlist with
  | [] => ret (PyStr latin)
  | st :: more =>
      a <- lift (alphabet_of_first st) ;;
      if String.eqb a "THAI" then
        match th2roman env st with
        | Ok out =>
            thai_loop more (latin ++ py_rstrip (py_rstrip_chars (py "<s/>") out))
        | Raise _ => stderr_write (TltkError st) ;;; ret PyNone
        end
      else thai_loop more (latin ++ st)
  end.

Definition thai_transcript (inpstr : pystr) : M pyval :=
  stlist <- lift (split_by_alphabet inpstr) ;;
  thai_loop stlist [].

(** The [for st in stlist] loop of [cantonese_transcript]. *)
Fixpoint cantonese_loop (stlist : list pystr) (latin : pystr) : M pyval :=
  match stlist with
  | [] => ret (PyStr latin)
  | st :: more =>
      a <- lift (alphabet_of_first st) ;;
      if String.eqb a "CJK" then
        match jyutping env st with
        | Ok out => cantonese_loop more (latin ++ out)
        | Raise _ => stderr_write (JyutpingError st) ;;; ret PyNone
        end
      else cantonese_loop more (latin ++ st)
  end.

Definition cantonese_transcript (inpstr : pystr) : M pyval :=
  stlist <- lift (split_by_alphabet inpstr) ;;
  cantonese_loop stlist [].

(** The [for w in kanji] loop of [transcriptor.transcript]. *)
Fixpoint hepburn_loop (kanji : list pystr) (out : pystr) : pystr :=
  match kanji with
  | [] => out
  | w :: more =>
      let h := py_strip w in
      if (Z.of_nat (List.length h) >? 0)
      then hepburn_loop more (out ++ py_capitalize env h ++ py " ")
      else hepburn_loop more out
  end.

(** [transcriptor.transcript] *)
Definition transcript (country unistr : pystr) : M pyval :=
  if pystr_eqb country (py "jp") then
    kanji <- lift (kakasi_convert env unistr) ;;
    ret (PyStr (py_strip (hepburn_loop kanji [])))
  else if pystr_eqb country (py "th") then thai_transcript unistr
  else if pystr_eqb country (py "mo") || pystr_eqb country (py "hk")
  then cantonese_transcript unistr
  else
    latin <- lift (icutr env unistr) ;;
    ret (PyStr (normalize_NFC env latin)).

(** [Coord2Country.getCountry] *)
Definition Coord2Country_getCountry (lon lat : pystr) : M pystr :=
  note_resolver_call lon lat ;;;
  if pystr_eqb lat [] && pystr_eqb lon [] then ret []
  else
    note_backend_query lon lat ;;;
    lift (backend_getCountry env lon lat).

(** ** Framing *)

(** [read_request]: [Ok None] is Python's [None] (connection closed). *)
Definition read_request (reader : pybytes) : result (option pystr) * pybytes :=
  match readexactly 4 reader with
  | (Raise IncompleteReadError, rd) => (Ok None, rd)
  | (Raise e, rd) => (Raise e, rd)
  | (Ok lendata, rd) =>
      if Z.of_nat (List.length lendata) =? 0 then (Ok None, rd)
      else
        match struct_unpack_I (native_order env) lendata with
        | Raise e => (Raise e, rd)
        | Ok length =>
            if py_eqb length (PyInt 0) then (Ok None, rd)
            else
              match py_index0 length with
              | Raise e => (Raise e, rd)
              | Ok n =>
                  match readexactly n rd with
                  | (Raise IncompleteReadError, rd') => (Ok None, rd')
                  | (Raise e, rd') => (Raise e, rd')
                  | (Ok data, rd') =>
                      match utf8_decode data with
                      | Some s => (Ok (Some s), rd')
                      | None => (Raise UnicodeDecodeError, rd')
                      end
                  end
              end
        end
  end.

(** [send_reply] *)
Definition send_reply (reply : pystr) : M unit :=
  match utf8_encode reply with
  | None => lift (Raise UnicodeEncodeError)
  | Some data =>
      match struct_pack_I (native_order env) (Z.of_nat (List.length data)) with
      | Raise e => lift (Raise e)
      | Ok prefix => writer_write (prefix ++ data)
      end
  end.

(** ** The connection handler *)

(** [(id, cc, name) = qs] *)
Definition unpack3 (qs : list pystr) : result (pystr * pystr * pystr) :=
  match qs with
  | [id; cc; name] => Ok (id, cc, name)
  | _ => Raise ValueError
  end.

(** [(id, lon, lat, name) = qs] *)
Definition unpack4 (qs : list pystr) : result (pystr * pystr * pystr * pystr) :=
  match qs with
  | [id; lon; lat; name] => Ok (id, lon, lat, name)
  | _ => Raise ValueError
  end.

(** The country of a coordinate request: the [if co2c.ready] block of
    [handle_connection]. *)
Definition coordinate_country (lon lat name : pystr) : M pystr :=
  if co2c_ready env then
    if contains_cjk name then Coord2Country_getCountry lon lat
    else if contains_thai name then ret (py "th")
    else ret []
  else ret [].

(** From the decoded payload to [(id, cc, name)]: the split and the two
    unpacking branches of [handle_connection].  [cc] is the country code
    that is handed to [tc.transcript]. *)
Definition parse_request (data : pystr) : M (pystr * pystr * pystr) :=
  let qs := py_split 0x2F 3 data in
  if Z.of_nat (List.length qs) =? 3 then lift (unpack3 qs)
  else
    f <- lift (unpack4 qs) ;;
    let '(id, lon, lat, name) := f in
    cc <- coordinate_country lon lat name ;;
    ret (id, cc, name).

(** The [try] block of [handle_connection] with its handler. *)
Definition answer_request (id cc name : pystr) : M unit :=
  try_except
    (reply <- (if negb (pystr_eqb name []) then transcript cc name
               else ret (PyStr [])) ;;
     match reply with
     | PyStr text => send_reply text
     | _ => stderr_write (NonStringReply id cc name reply) ;;; send_reply []
     end)
    (fun err => stderr_write (RequestError id err) ;;; send_reply []).

(** One turn of the [while True] loop after a request was read. *)
Definition handle_request (data : pystr) : M unit :=
  r <- parse_request data ;;
  let '(id, cc, name) := r in
  answer_request id cc name.

(** How [handle_connection] ends: it returns after [read_request] gave
    [None], or an exception leaves the coroutine. *)
Inductive outcome :=
| ConnectionClosed
| Crashed (e : exn).

(** The [while True] loop; [None] only when the fuel runs out. *)
Fixpoint handle_loop (fuel : nat) (reader : pybytes) (w : world)
  : option (outcome * world) :=
  match fuel with
  | O => None
  | S fuel' =>
      match read_request reader with
      | (Raise e, _) => Some (Crashed e, w)
      | (Ok None, _) => Some (ConnectionClosed, w)
      | (Ok (Some data), reader') =>
          match handle_request data w with
          | (Raise e, w') => Some (Crashed e, w')
          | (Ok _, w') => handle_loop fuel' reader' w'
          end
      end
  end.

(** [handle_connection]: every turn of the loop takes at least the four
    octets of a length prefix off the reader, so one unit of fuel per
    octet, and one for the final read, is enough. *)
Definition handle_connection (reader : pybytes) (w : world)
  : option (outcome * world) :=
  handle_loop (S (List.length reader)) reader w.

End Daemon.

(** ** A concrete set of collaborators, for running the model *)

Definition sample_name (c : Z) : option string :=
  if (0x61 <=? c) && (c <=? 0x7A) then Some "LATIN SMALL LETTER"%string
  else if (0x41 <=? c) && (c <=? 0x5A) then Some "LATIN CAPITAL LETTER"%string
  else if (0x30 <=? c) && (c <=? 0x39) then Some "DIGIT"%string
  else if c =? 0x20 then Some "SPACE"%string
  else if ((0x0E01 <=? c) && (c <=? 0x0E3A)) || ((0x0E3F <=? c) && (c <=? 0x0E5B))
  then Some "THAI CHARACTER"%string
  else if (0x4E00 <=? c) && (c <=? 0x9FFF) then Some "CJK UNIFIED IDEOGRAPH"%string
  else None.

Definition sample_env : collaborators := {|
  native_order := LittleEndian;
  unicodedata_name := sample_name;
  th2roman := fun _ => Ok (py "krungthep <s/>");
  jyutping := fun _ => Ok (py "hoeng1 gong2");
  kakasi_convert := fun _ => Ok [py "toukyou"];
  py_capitalize := fun s => match s with [] => [] | c :: r => (c - 32) :: r end;
  icutr := fun s => Ok s;
  normalize_NFC := fun s => s;
  co2c_ready := true;
  backend_getCountry := fun _ _ => Ok (py "jp")
|}.

(** A request or reply frame in little-endian order. *)
Definition frame (payload : pybytes) : pybytes :=
  le_bytes (Z.of_nat (List.length payload)) ++ payload.

(** The same collaborators with both run engines out of order. *)
Definition failing_env : collaborators := {|
  native_order := LittleEndian;
  unicodedata_name := sample_name;
  th2roman := fun _ => Raise (EngineError 1);
  jyutping := fun _ => Raise (EngineError 2);
  kakasi_convert := fun _ => Ok [py "toukyou"];
  py_capitalize := fun s => s;
  icutr := fun s => Ok s;
  normalize_NFC := fun s => s;
  co2c_ready := true;
  backend_getCountry := fun _ _ => Ok (py "jp")
|}.

(** The same collaborators with a Thai engine that puts the marker right
    after the last letter. *)
Definition tight_marker_env : collaborators := {|
  native_order := LittleEndian;
  unicodedata_name := sample_name;
  th2roman := fun _ => Ok (py "mas<s/>");
  jyutping := fun _ => Ok (py "hoeng1 gong2");
  kakasi_convert := fun _ => Ok [py "toukyou"];
  py_capitalize := fun s => s;
  icutr := fun s => Ok s;
  normalize_NFC := fun s => s;
  co2c_ready := true;
  backend_getCountry := fun _ _ => Ok (py "jp")
|}.

(** The frame of the empty reply: length 0 in either byte order, no payload. *)
Definition empty_frame : pybytes := [0; 0; 0; 0].

(** ** Notions of the specification *)

(** The Thai block of Unicode, U+0E00..U+0E7F. *)
Definition thai_block (c : Z) : bool := (0x0E00 <=? c) && (c <=? 0x0E7F).

(** The code points of the Thai block that Unicode assigns a character to:
    U+0E01..U+0E3A and U+0E3F..U+0E5B. *)
Definition thai_assigned (c : Z) : bool :=
  ((0x0E01 <=? c) && (c <=? 0x0E3A)) || ((0x0E3F <=? c) && (c <=? 0x0E5B)).

(** The CJK Unified Ideographs block, U+4E00..U+9FFF, the range named in
    the comment above [contains_cjk]. *)
Definition cjk_block (c : Z) : bool := (0x4E00 <=? c) && (c <=? 0x9FFF).

(** Effects that leave the country resolver alone. *)
Definition geo_untouched {A} (m : M A) : Prop :=
  forall w, resolver_calls (snd (m w)) = resolver_calls w
            /\ backend_queries (snd (m w)) = backend_queries w.

(** The marker token at the end of the Thai engine's output. *)
Definition marker : pystr := py "<s/>".

(** [s.removesuffix(suffix)]: the token as a whole, or nothing. *)
Definition remove_suffix (suffix s : pystr) : pystr :=
  let n := (List.length s - List.length suffix)%nat in
  if (List.length suffix <=? List.length s)%nat && pystr_eqb (skipn n s) suffix
  then firstn n s else s.

(** The specification's words for the clean-up of the engine's output: the
    trailing marker token goes, as a whole, with the whitespace around it. *)
Definition strip_marker_token (out : pystr) : pystr :=
  py_rstrip (remove_suffix marker (py_rstrip out)).

(** An engine output that ends in the marker token, with the text before
    the token not ending in one of the token's own characters. *)
Definition marker_terminated (out : pystr) : bool :=
  match rev out with
  | c4 :: c3 :: c2 :: c1 :: before =>
      pystr_eqb [c1; c2; c3; c4] marker
      && match before with
         | [] => true
         | c :: _ => negb (mem_cp c marker)
         end
  | _ => false
  end.

(** What the code does to the engine's output: trailing code points out of
    the set of the marker's characters go, then trailing whitespace. *)
Definition strip_marker_chars (out : pystr) : pystr :=
  py_rstrip (py_rstrip_chars marker out).

Section Runs.

Variable env : collaborators.

(** The alphabet shared by all code points of a non-empty string. *)
Definition uniform_alphabet (st : pystr) : option string :=
  match st with
  | [] => None
  | c :: r =>
      match alphabet_of env c with
      | Ok a =>
          if forallb (fun d => match alphabet_of env d with
                               | Ok b => String.eqb b a
                               | Raise _ => false
                               end) r
          then Some a else None
      | Raise _ => None
      end
  end.

(** Maximal same-alphabet runs: each run is non-empty with one alphabet,
    and neighbouring runs have different alphabets. *)
Fixpoint maximal_runs (runs : list pystr) : bool :=
  match runs with
  | [] => true
  | st :: more =>
      match uniform_alphabet st with
      | None => false
      | Some a =>
          match more with
          | [] => true
          | st' :: _ =>
              match uniform_alphabet st' with
              | Some b => negb (String.eqb a b)
              | None => false
              end
          end && maximal_runs more
      end
  end.

(** What becomes of one run in the Thai strategy, for a clean-up [strip]
    of the engine's output. *)
Definition thai_piece (strip : pystr -> pystr) (st piece : pystr) : Prop :=
  match alphabet_of_first env st with
  | Ok a =>
      if String.eqb a "THAI"
      then exists out, th2roman env st = Ok out /\ piece = strip out
      else piece = st
  | Raise _ => False
  end.

(** The Thai strategy on input [inpstr]: the input is cut into maximal
    same-alphabet runs, each run gives its piece, the pieces are
    concatenated in order and returned as text. *)
Definition thai_strategy_result (strip : pystr -> pystr) (inpstr : pystr) : Prop :=
  exists runs pieces,
    split_by_alphabet env inpstr = Ok runs
    /\ List.concat runs = inpstr
    /\ maximal_runs runs = true
    /\ Forall2 (thai_piece strip) runs pieces
    /\ forall w, thai_transcript env inpstr w = (Ok (PyStr (List.concat pieces)), w).

End Runs.


(** ** Notions for the properties of the remaining code *)

(** A frame in byte order [o]: the packed length, then the payload. *)
Definition frame_in (o : byteorder) (payload : pybytes) : pybytes :=
  in_order o (le_bytes (Z.of_nat (List.length payload))) ++ payload.

(** The reader that carries the given payloads, one frame each. *)
Definition request_stream (o : byteorder) (payloads : list pybytes) : pybytes :=
  List.concat (map (frame_in o) payloads).

(** Effects that write nothing to the peer. *)
Definition writer_untouched {A} (m : M A) : Prop :=
  forall w, writer (snd (m w)) = writer w.

(** No [/] in a field. *)
Definition no_slash (s : pystr) : Prop := ~ In 0x2F s.

(** [len(h) > 0] *)
Definition nonempty (h : pystr) : bool :=
  match h with
  | [] => false
  | _ :: _ => true
  end.


(** The sample collaborators with a transliterator that lets a lone
    surrogate through. *)
Definition surrogate_env : collaborators := {|
  native_order := LittleEndian;
  unicodedata_name := sample_name;
  th2roman := fun _ => Ok (py "krungthep <s/>");
  jyutping := fun _ => Ok (py "hoeng1 gong2");
  kakasi_convert := fun _ => Ok [py "toukyou"];
  py_capitalize := fun s => s;
  icutr := fun s => Ok (s ++ [0xD800]);
  normalize_NFC := fun s => s;
  co2c_ready := true;
  backend_getCountry := fun _ _ => Ok (py "jp")
|}.

Section MoreNotions.

Variable env : collaborators.

(** The payloads of a connection handled one after the other, up to the
    first exception. *)
Fixpoint handle_all (datas : list pystr) : M unit :=
  match datas with
  | [] => ret tt
  | data :: more => handle_request env data ;;; handle_all more
  end.

(** How [handle_connection] ends after the requests [datas] when the peer
    closes behind the last of them. *)
Definition served (datas : list pystr) (w : world) : outcome * world :=
  match handle_all datas w with
  | (Ok _, w') => (ConnectionClosed, w')
  | (Raise e, w') => (Crashed e, w')
  end.

(** What becomes of one run in the Cantonese strategy. *)
Definition cantonese_piece (st piece : pystr) : Prop :=
  match alphabet_of_first env st with
  | Ok a =>
      if String.eqb a "CJK" then jyutping env st = Ok piece else piece = st
  | Raise _ => False
  end.

(** The text the Japanese strategy builds from the fragments of
    [kakasi.convert]: blank fragments dropped, the others trimmed,
    capitalized and followed by one space, the whole trimmed. *)
Definition hepburn_text (kanji : list pystr) : pystr :=
  py_strip
    (List.concat
       (map (fun h => py_capitalize env h ++ py " ")
            (filter nonempty (map py_strip kanji)))).

End MoreNotions.

(** * Properties *)

(** ** UTF-8 *)

Ltac bool_true :=
  unfold is_cont, is_surrogate;
  rewrite ?Bool.negb_true_iff, ?Bool.andb_true_iff, ?Bool.andb_false_iff,
    ?Z.leb_le, ?Z.ltb_lt, ?Z.leb_gt, ?Z.ltb_ge; lia.

Ltac bool_false :=
  apply Bool.not_true_is_false;
  unfold is_cont, is_surrogate;
  rewrite ?Bool.andb_true_iff, ?Z.leb_le, ?Z.ltb_lt; lia.

(** Resolve the test of the leading [if] of the left-hand side. *)
Ltac if_true :=
  match goal with
  | |- (if ?b then _ else _) = _ => replace b with true by (symmetry; bool_true)
  end.
Ltac if_false :=
  match goal with
  | |- (if ?b then _ else _) = _ => replace b with false by (symmetry; bool_false)
  end.

Lemma utf8_decode_1 (b0 : Z) (r : pybytes) :
  0 <= b0 < 0x80 -> utf8_decode (b0 :: r) = cons_cp b0 (utf8_decode r).
Proof.
  intros H. cbn [utf8_decode]. if_true. reflexivity.
Qed.

Lemma utf8_decode_2 (b0 b1 : Z) (r : pybytes) :
  0xC2 <= b0 <= 0xDF -> 0x80 <= b1 <= 0xBF ->
  utf8_decode (b0 :: b1 :: r)
  = cons_cp ((b0 - 0xC0) * 64 + (b1 - 0x80)) (utf8_decode r).
Proof.
  intros H0 H1. cbn [utf8_decode]. if_false. if_true. if_true. reflexivity.
Qed.

Lemma utf8_decode_3 (b0 b1 b2 : Z) (r : pybytes) :
  let c := (b0 - 0xE0) * 4096 + (b1 - 0x80) * 64 + (b2 - 0x80) in
  0xE0 <= b0 <= 0xEF -> 0x80 <= b1 <= 0xBF -> 0x80 <= b2 <= 0xBF ->
  0x800 <= c -> ~ (0xD800 <= c <= 0xDFFF) ->
  utf8_decode (b0 :: b1 :: b2 :: r) = cons_cp c (utf8_decode r).
Proof.
  intros c H0 H1 H2 Hc Hs. subst c. cbn [utf8_decode].
  if_false. if_false. if_true. cbv zeta. if_true. reflexivity.
Qed.

Lemma utf8_decode_4 (b0 b1 b2 b3 : Z) (r : pybytes) :
  let c := (b0 - 0xF0) * 262144 + (b1 - 0x80) * 4096
           + (b2 - 0x80) * 64 + (b3 - 0x80) in
  0xF0 <= b0 <= 0xF4 -> 0x80 <= b1 <= 0xBF -> 0x80 <= b2 <= 0xBF ->
  0x80 <= b3 <= 0xBF -> 0x10000 <= c < 0x110000 ->
  utf8_decode (b0 :: b1 :: b2 :: b3 :: r) = cons_cp c (utf8_decode r).
Proof.
  intros c H0 H1 H2 H3 Hc. subst c. cbn [utf8_decode].
  if_false. if_false. if_false. if_true. cbv zeta. if_true. reflexivity.
Qed.

Lemma utf8_decode_encode_cp_cases (c : Z) (rest : pybytes) :
  match utf8_encode_cp c with
  | Some bs => utf8_decode (bs ++ rest) = cons_cp c (utf8_decode rest)
  | None => True
  end.
Proof.
  unfold utf8_encode_cp, is_surrogate.
  destruct (Z.ltb_spec c 0); [exact I|].
  destruct (Z.ltb_spec c 0x80).
  { cbn [app]. apply utf8_decode_1. lia. }
  destruct (Z.ltb_spec c 0x800).
  { cbn [app]. rewrite utf8_decode_2 by (Z.div_mod_to_equations; lia).
    f_equal. Z.div_mod_to_equations; lia. }
  destruct (Z.ltb_spec c 0x10000).
  { destruct (Z.leb_spec 0xD800 c); destruct (Z.leb_spec c 0xDFFF);
      cbn [andb app]; try exact I;
      assert (E : (0xE0 + c / 4096 - 0xE0) * 4096
                  + (0x80 + (c / 64) mod 64 - 0x80) * 64
                  + (0x80 + c mod 64 - 0x80) = c)
        by (Z.div_mod_to_equations; lia);
      (rewrite utf8_decode_3;
       [ rewrite E; reflexivity
       | Z.div_mod_to_equations; lia
       | Z.div_mod_to_equations; lia
       | Z.div_mod_to_equations; lia
       | rewrite E; lia
       | rewrite E; lia ]). }
  destruct (Z.ltb_spec c 0x110000); [|exact I].
  cbn [app].
  assert (E : (0xF0 + c / 262144 - 0xF0) * 262144
              + (0x80 + (c / 4096) mod 64 - 0x80) * 4096
              + (0x80 + (c / 64) mod 64 - 0x80) * 64
              + (0x80 + c mod 64 - 0x80) = c)
    by (Z.div_mod_to_equations; lia).
  rewrite utf8_decode_4;
    [ rewrite E; reflexivity
    | Z.div_mod_to_equations; lia
    | Z.div_mod_to_equations; lia
    | Z.div_mod_to_equations; lia
    | Z.div_mod_to_equations; lia
    | rewrite E; lia ].
Qed.

(** [bytes.decode] undoes [str.encode]. *)
Lemma utf8_decode_encode (s : pystr) (bs : pybytes) :
  utf8_encode s = Some bs -> utf8_decode bs = Some s.
Proof.
  revert bs. induction s as [|c r IH]; intros bs.
  - cbn [utf8_encode]. intros E. assert (bs = []) by congruence. subst. reflexivity.
  - cbn [utf8_encode].
    pose proof (utf8_decode_encode_cp_cases c) as Hc.
    destruct (utf8_encode_cp c) as [b1|]; [|discriminate].
    destruct (utf8_encode r) as [br|] eqn:E2; [|discriminate].
    intros E. assert (bs = b1 ++ br) by congruence. subst bs.
    rewrite Hc, (IH br eq_refl). reflexivity.
Qed.

(** ** [struct] and the reader *)

Lemma in_order_involutive (o : byteorder) (bs : pybytes) :
  in_order o (in_order o bs) = bs.
Proof. destruct o; cbn [in_order]; [reflexivity | apply rev_involutive]. Qed.

Lemma in_order_length (o : byteorder) (bs : pybytes) :
  List.length (in_order o bs) = List.length bs.
Proof. destruct o; cbn [in_order]; [reflexivity | apply length_rev]. Qed.

Lemma le_value_le_bytes (n : Z) :
  0 <= n < 4294967296 -> le_value (le_bytes n) = Some n.
Proof.
  intros H. unfold le_bytes, le_value. f_equal.
  Z.div_mod_to_equations. lia.
Qed.

(** Unpacking what [struct.pack('I', n)] produced gives the tuple [(n,)],
    in either byte order; the packed prefix is four octets long. *)
Lemma struct_pack_unpack (o : byteorder) (n : Z) :
  0 <= n < 4294967296 ->
  exists prefix,
    struct_pack_I o n = Ok prefix
    /\ List.length prefix = 4%nat
    /\ struct_unpack_I o prefix = Ok (PyIntTuple [n]).
Proof.
  intros H. exists (in_order o (le_bytes n)). unfold struct_pack_I, struct_unpack_I.
  replace ((0 <=? n) && (n <? 4294967296)) with true by (symmetry; bool_true).
  rewrite in_order_involutive, le_value_le_bytes by exact H.
  rewrite in_order_length. repeat split.
Qed.

Lemma readexactly_app (a b : pybytes) :
  readexactly (Z.of_nat (List.length a)) (a ++ b) = (Ok a, b).
Proof.
  unfold readexactly. rewrite length_app, Nat2Z.id.
  replace (Z.of_nat (List.length a + List.length b) <? Z.of_nat (List.length a))
    with false by (symmetry; apply Z.ltb_ge; lia).
  f_equal.
  - f_equal. induction a as [|x a IH]; [destruct b; reflexivity|].
    cbn [List.length firstn app]. f_equal. exact IH.
  - induction a as [|x a IH]; [reflexivity|]. exact IH.
Qed.

Lemma readexactly_short (n : Z) (reader : pybytes) :
  Z.of_nat (List.length reader) < n ->
  readexactly n reader = (Raise IncompleteReadError, []).
Proof.
  intros H. unfold readexactly.
  replace (Z.of_nat (List.length reader) <? n) with true
    by (symmetry; apply Z.ltb_lt; exact H).
  reflexivity.
Qed.

(** [readexactly] never hands back more than it was given. *)
Lemma readexactly_rest_length (n : Z) (reader : pybytes) :
  (List.length (snd (readexactly n reader)) <= List.length reader)%nat.
Proof.
  unfold readexactly. destruct (_ <? _); cbn [snd List.length]; [lia|].
  rewrite length_skipn. lia.
Qed.

Lemma readexactly_4_rest_length (reader : pybytes) (lendata rd : pybytes) :
  readexactly 4 reader = (Ok lendata, rd) ->
  (List.length rd + 4 = List.length reader)%nat /\ List.length lendata = 4%nat.
Proof.
  unfold readexactly. destruct (Z.ltb_spec (Z.of_nat (List.length reader)) 4);
    [discriminate|].
  intros E. assert (E1 : lendata = firstn (Z.to_nat 4) reader) by congruence.
  assert (E2 : rd = skipn (Z.to_nat 4) reader) by congruence.
  subst. rewrite length_skipn, length_firstn. lia.
Qed.

Section Framing.

Variable env : collaborators.

(** [read_request] on a well-formed frame: the payload comes back decoded
    and the reader stands right after the frame. *)
Lemma read_request_frame (prefix data rest : pybytes) (s : pystr) :
  List.length prefix = 4%nat ->
  struct_unpack_I (native_order env) prefix
  = Ok (PyIntTuple [Z.of_nat (List.length data)]) ->
  utf8_decode data = Some s ->
  read_request env (prefix ++ data ++ rest) = (Ok (Some s), rest).
Proof.
  intros Hlen Hun Hdec. unfold read_request.
  replace 4 with (Z.of_nat (List.length prefix)) by (rewrite Hlen; reflexivity).
  rewrite readexactly_app, Hlen. cbn [Nat.eqb Z.of_nat Z.eqb].
  rewrite Hun. cbn [py_eqb py_index0].
  rewrite readexactly_app, Hdec. reflexivity.
Qed.

End Framing.

(** ** The loop of [handle_connection] *)

Section Loop.

Variable env : collaborators.

(** A request that was read took at least its length prefix off the reader. *)
Lemma read_request_shrinks (reader reader' : pybytes) (data : pystr) :
  read_request env reader = (Ok (Some data), reader') ->
  (List.length reader' + 4 <= List.length reader)%nat.
Proof.
  unfold read_request.
  destruct (readexactly 4 reader) as [[lendata|e] rd] eqn:E4.
  2:{ destruct e; discriminate. }
  apply readexactly_4_rest_length in E4. destruct E4 as [E4 _].
  destruct (_ =? 0); [discriminate|].
  destruct (struct_unpack_I _ _) as [len|e]; [|discriminate].
  destruct (py_eqb _ _); [discriminate|].
  destruct (py_index0 len) as [n|e]; [|discriminate].
  pose proof (readexactly_rest_length n rd) as Hn.
  destruct (readexactly n rd) as [[d|e] rd'].
  2:{ destruct e; discriminate. }
  cbn [snd] in Hn.
  destruct (utf8_decode d); intros E; [|discriminate].
  assert (rd' = reader') by congruence. subst. lia.
Qed.

(** Beyond one unit per octet of the reader, fuel makes no difference. *)
Lemma handle_loop_fuel (f1 : nat) :
  forall (f2 : nat) (reader : pybytes) (w : world),
    (List.length reader < f1)%nat -> (List.length reader < f2)%nat ->
    handle_loop env f1 reader w = handle_loop env f2 reader w.
Proof.
  induction f1 as [|f1 IH]; intros f2 reader w H1 H2; [lia|].
  destruct f2 as [|f2]; [lia|].
  cbn [handle_loop].
  destruct (read_request env reader) as [[[data|]|e] reader'] eqn:Er; try reflexivity.
  apply read_request_shrinks in Er.
  destruct (handle_request env data w) as [[u|e] w']; [|reflexivity].
  apply IH; lia.
Qed.

(** [handle_connection] always comes to an end. *)
Lemma handle_loop_total (fuel : nat) :
  forall (reader : pybytes) (w : world),
    (List.length reader < fuel)%nat ->
    exists r, handle_loop env fuel reader w = Some r.
Proof.
  induction fuel as [|fuel IH]; intros reader w H; [lia|].
  cbn [handle_loop].
  destruct (read_request env reader) as [[[data|]|e] reader'] eqn:Er; eauto.
  apply read_request_shrinks in Er.
  destruct (handle_request env data w) as [[u|e] w']; eauto.
  apply IH. lia.
Qed.

Lemma handle_connection_total (reader : pybytes) (w : world) :
  exists r, handle_connection env reader w = Some r.
Proof. apply handle_loop_total. unfold lt. apply le_n. Qed.

(** The loop, one turn at a time. *)
Lemma handle_connection_unfold (reader : pybytes) (w : world) :
  handle_connection env reader w =
  match read_request env reader with
  | (Raise e, _) => Some (Crashed e, w)
  | (Ok None, _) => Some (ConnectionClosed, w)
  | (Ok (Some data), reader') =>
      match handle_request env data w with
      | (Raise e, w') => Some (Crashed e, w')
      | (Ok _, w') => handle_connection env reader' w'
      end
  end.
Proof.
  unfold handle_connection at 1. cbn [handle_loop].
  destruct (read_request env reader) as [[[data|]|e] reader'] eqn:Er; try reflexivity.
  apply read_request_shrinks in Er.
  destruct (handle_request env data w) as [[u|e] w']; [|reflexivity].
  apply handle_loop_fuel; lia.
Qed.

End Loop.

(** ** Requests and replies *)

Section Requests.

Variable env : collaborators.

Lemma unpack_empty_frame :
  struct_unpack_I (native_order env) empty_frame = Ok (PyIntTuple [0]).
Proof. unfold struct_unpack_I. destruct (native_order env); reflexivity. Qed.

(** The empty reply goes out as four zero octets. *)
Lemma send_reply_empty (w : world) :
  send_reply env [] w = (Ok tt, wrote empty_frame w).
Proof. unfold send_reply. destruct (native_order env); reflexivity. Qed.

(** A payload with fewer than three fields fails both unpackings, outside
    the [try] block. *)
Lemma handle_request_field_count (data : pystr) (w : world) :
  List.length (py_split 0x2F 3 data) <> 3%nat ->
  List.length (py_split 0x2F 3 data) <> 4%nat ->
  handle_request env data w = (Raise ValueError, w).
Proof.
  intros H3 H4. unfold handle_request, parse_request, bind.
  destruct (Z.eqb_spec (Z.of_nat (List.length (py_split 0x2F 3 data))) 3) as [E|_];
    [lia|].
  revert H4.
  destruct (py_split 0x2F 3 data) as [|a [|b [|c [|d [|e l]]]]];
    cbn [List.length]; intros H4; try reflexivity; congruence.
Qed.

Lemma geo_untouched_ret {A} (a : A) : geo_untouched (ret a).
Proof. intros w. split; reflexivity. Qed.

Lemma geo_untouched_lift {A} (r : result A) : geo_untouched (lift r).
Proof. intros w. split; reflexivity. Qed.

Lemma geo_untouched_bind {A B} (m : M A) (k : A -> M B) :
  geo_untouched m -> (forall a, geo_untouched (k a)) -> geo_untouched (bind m k).
Proof.
  intros Hm Hk w. unfold bind. specialize (Hm w).
  destruct (m w) as [[a|e] w']; cbn [snd] in *; [|exact Hm].
  destruct (Hk a w') as [H1 H2]. destruct Hm as [H3 H4]. split; congruence.
Qed.

Lemma geo_untouched_try {A} (m : M A) (h : exn -> M A) :
  geo_untouched m -> (forall e, geo_untouched (h e)) -> geo_untouched (try_except m h).
Proof.
  intros Hm Hh w. unfold try_except. specialize (Hm w).
  destruct (m w) as [[a|e] w']; cbn [snd] in *; [exact Hm|].
  destruct (Hh e w') as [H1 H2]. destruct Hm as [H3 H4]. split; congruence.
Qed.

Lemma geo_untouched_stderr (l : stderr_line) : geo_untouched (stderr_write l).
Proof. intros w. split; reflexivity. Qed.

Lemma geo_untouched_send (reply : pystr) : geo_untouched (send_reply env reply).
Proof.
  unfold send_reply. destruct (utf8_encode reply); [|apply geo_untouched_lift].
  destruct (struct_pack_I _ _); [|apply geo_untouched_lift].
  intros w. split; reflexivity.
Qed.

Create HintDb geo.
#[local] Hint Resolve geo_untouched_ret geo_untouched_lift geo_untouched_stderr
  geo_untouched_send : geo.

Lemma geo_untouched_thai_loop (stlist : list pystr) :
  forall latin, geo_untouched (thai_loop env stlist latin).
Proof.
  induction stlist as [|st more IH]; intros latin; cbn [thai_loop]; auto with geo.
  apply geo_untouched_bind; auto with geo. intros a.
  destruct (String.eqb a "THAI"); auto.
  destruct (th2roman env st); auto.
  apply geo_untouched_bind; auto with geo.
Qed.

Lemma geo_untouched_cantonese_loop (stlist : list pystr) :
  forall latin, geo_untouched (cantonese_loop env stlist latin).
Proof.
  induction stlist as [|st more IH]; intros latin; cbn [cantonese_loop]; auto with geo.
  apply geo_untouched_bind; auto with geo. intros a.
  destruct (String.eqb a "CJK"); auto.
  destruct (jyutping env st); auto.
  apply geo_untouched_bind; auto with geo.
Qed.

Lemma geo_untouched_transcript (country unistr : pystr) :
  geo_untouched (transcript env country unistr).
Proof.
  unfold transcript, thai_transcript, cantonese_transcript.
  destruct (pystr_eqb country (py "jp")).
  { apply geo_untouched_bind; auto with geo. }
  destruct (pystr_eqb country (py "th")).
  { apply geo_untouched_bind; auto with geo. intros. apply geo_untouched_thai_loop. }
  destruct (_ || _).
  { apply geo_untouched_bind; auto with geo. intros. apply geo_untouched_cantonese_loop. }
  apply geo_untouched_bind; auto with geo.
Qed.

(** Answering a request never consults the resolver: only the parsing of a
    coordinate request does. *)
Lemma geo_untouched_answer (id cc name : pystr) :
  geo_untouched (answer_request env id cc name).
Proof.
  unfold answer_request. apply geo_untouched_try.
  - apply geo_untouched_bind.
    + destruct (negb _); auto with geo. apply geo_untouched_transcript.
    + intros [| |text|]; auto with geo;
        apply geo_untouched_bind; auto with geo.
  - intros e. apply geo_untouched_bind; auto with geo.
Qed.

End Requests.

(** ** Framing round trip *)

(** C9. For a reply whose UTF-8 encoding [data] has [N] octets, [N] within
    the range of the four-octet prefix: [send_reply] writes a prefix of
    four octets that unpacks to [N], followed by exactly [data], and
    [read_request] on that frame gives the reply back and leaves the
    reader right after the frame.  [N = 0] is included. *)
Theorem framing_round_trip
  (env : collaborators) (reply : pystr) (data rest : pybytes) (w : world) :
  utf8_encode reply = Some data ->
  Z.of_nat (List.length data) < 4294967296 ->
  exists prefix,
    send_reply env reply w = (Ok tt, wrote (prefix ++ data) w)
    /\ List.length prefix = 4%nat
    /\ struct_unpack_I (native_order env) prefix
       = Ok (PyIntTuple [Z.of_nat (List.length data)])
    /\ read_request env (prefix ++ data ++ rest) = (Ok (Some reply), rest).
Proof.
  intros Henc Hlen.
  destruct (struct_pack_unpack (native_order env) (Z.of_nat (List.length data)))
    as [prefix [Hp [Hl Hu]]]; [lia|].
  exists prefix. repeat split; try assumption.
  - unfold send_reply. rewrite Henc, Hp. reflexivity.
  - apply read_request_frame; try assumption.
    apply utf8_decode_encode. exact Henc.
Qed.

Lemma framing_round_trip_witness :
  utf8_encode [0x54; 0x14D; 0x4EAC] = Some [84; 197; 141; 228; 186; 172]
  /\ exists prefix,
       send_reply sample_env [0x54; 0x14D; 0x4EAC] world0
       = (Ok tt, wrote (prefix ++ [84; 197; 141; 228; 186; 172]) world0)
       /\ List.length prefix = 4%nat
       /\ struct_unpack_I LittleEndian prefix = Ok (PyIntTuple [6])
       /\ read_request sample_env (prefix ++ [84; 197; 141; 228; 186; 172] ++ [7])
          = (Ok (Some [0x54; 0x14D; 0x4EAC]), [7]).
Proof.
  split; [reflexivity|].
  apply (framing_round_trip sample_env [0x54; 0x14D; 0x4EAC]
           [84; 197; 141; 228; 186; 172] [7] world0);
    [reflexivity | vm_compute; reflexivity].
Defined.

(** ** Frames the handler does not survive *)

(** C2. A frame whose length prefix is 0 does not end the connection
    cleanly: [struct.unpack] gives the tuple [(0,)], which is never equal
    to the integer 0, so [read_request] returns the empty text instead of
    [None]; the handler takes it for a request and the unpacking of its
    single field raises [ValueError] out of [handle_connection]. *)
Theorem zero_length_frame_crashes
  (env : collaborators) (rest : pybytes) (w : world) :
  read_request env (empty_frame ++ rest) = (Ok (Some []), rest)
  /\ handle_connection env (empty_frame ++ rest) w = Some (Crashed ValueError, w).
Proof.
  assert (Hr : read_request env (empty_frame ++ rest) = (Ok (Some []), rest)).
  { apply (read_request_frame env empty_frame [] rest []);
      [reflexivity | apply unpack_empty_frame | reflexivity]. }
  split; [exact Hr|].
  rewrite handle_connection_unfold, Hr.
  rewrite handle_request_field_count; [reflexivity | discriminate | discriminate].
Qed.

(** C1. A payload that splits into one or two fields is not isolated to
    its request: the four-way unpacking stands before the [try] block, its
    [ValueError] leaves [handle_connection], nothing is written to the
    peer or to standard error, and what follows on the reader is never
    read. *)
Theorem malformed_request_crashes
  (env : collaborators) (reader reader' : pybytes) (data : pystr) (w : world) :
  read_request env reader = (Ok (Some data), reader') ->
  List.length (py_split 0x2F 3 data) <> 3%nat ->
  List.length (py_split 0x2F 3 data) <> 4%nat ->
  handle_connection env reader w = Some (Crashed ValueError, w).
Proof.
  intros Hr H3 H4.
  rewrite handle_connection_unfold, Hr.
  rewrite handle_request_field_count by assumption. reflexivity.
Qed.

Lemma malformed_request_crashes_witness :
  py_split 0x2F 3 (py "1/x") = [py "1"; py "x"]
  /\ handle_connection sample_env (frame (py "1/x") ++ frame (py "2/jp/abc")) world0
     = Some (Crashed ValueError, world0).
Proof.
  split; [reflexivity|].
  apply (malformed_request_crashes sample_env
           (frame (py "1/x") ++ frame (py "2/jp/abc")) (frame (py "2/jp/abc"))
           (py "1/x") world0);
    [reflexivity | discriminate | discriminate].
Defined.

(** ** Country resolution *)

(** C7. A three-field request [id/cc/name]: the country code handed to the
    dispatcher is [cc] as supplied, whatever the name contains, and neither
    the resolver nor its backend is called while the request is handled. *)
Theorem three_field_country_verbatim
  (env : collaborators) (data id cc name : pystr) (w : world) :
  py_split 0x2F 3 data = [id; cc; name] ->
  parse_request env data w = (Ok (id, cc, name), w)
  /\ handle_request env data w = answer_request env id cc name w
  /\ resolver_calls (snd (handle_request env data w)) = resolver_calls w
  /\ backend_queries (snd (handle_request env data w)) = backend_queries w.
Proof.
  intros Hs.
  assert (Hp : parse_request env data w = (Ok (id, cc, name), w)).
  { unfold parse_request. rewrite Hs. reflexivity. }
  assert (Hh : handle_request env data w = answer_request env id cc name w).
  { unfold handle_request, bind. rewrite Hp. reflexivity. }
  split; [exact Hp|]. split; [exact Hh|].
  rewrite Hh. apply geo_untouched_answer.
Qed.

Lemma three_field_country_verbatim_witness :
  py_split 0x2F 3 (py "7/hk/" ++ [0x0E01; 0x4EAC]) = [py "7"; py "hk"; [0x0E01; 0x4EAC]]
  /\ parse_request sample_env (py "7/hk/" ++ [0x0E01; 0x4EAC]) world0
     = (Ok (py "7", py "hk", [0x0E01; 0x4EAC]), world0).
Proof.
  split; [reflexivity|].
  apply (three_field_country_verbatim sample_env (py "7/hk/" ++ [0x0E01; 0x4EAC])
           (py "7") (py "hk") [0x0E01; 0x4EAC] world0).
  reflexivity.
Defined.

Lemma coordinate_country_empty_name
  (env : collaborators) (lon lat : pystr) (w : world) :
  coordinate_country env lon lat [] w = (Ok [], w).
Proof. unfold coordinate_country. destruct (co2c_ready env); reflexivity. Qed.

Lemma answer_request_empty_name (env : collaborators) (id cc : pystr) (w : world) :
  answer_request env id cc [] w = (Ok tt, wrote empty_frame w).
Proof.
  unfold answer_request, try_except, bind.
  change (pystr_eqb [] []) with true. cbn [negb ret].
  rewrite send_reply_empty. reflexivity.
Qed.

(** C8. A request of either shape whose name field is empty is answered
    with the empty reply (four zero octets), with nothing logged and no
    call to the resolver. *)
Theorem empty_name_empty_reply
  (env : collaborators) (data : pystr) (w : world) :
  (exists id cc, py_split 0x2F 3 data = [id; cc; []])
  \/ (exists id lon lat, py_split 0x2F 3 data = [id; lon; lat; []]) ->
  handle_request env data w = (Ok tt, wrote empty_frame w).
Proof.
  intros [[id [cc Hs]] | [id [lon [lat Hs]]]];
    unfold handle_request, parse_request; rewrite Hs.
  - cbn [List.length Z.of_nat Pos.of_succ_nat Pos.succ Z.eqb Pos.eqb unpack3].
    cbv beta iota delta [bind lift ret].
    apply answer_request_empty_name.
  - cbn [List.length Z.of_nat Pos.of_succ_nat Pos.succ Z.eqb Pos.eqb unpack4].
    cbv beta iota delta [bind lift ret].
    rewrite coordinate_country_empty_name.
    apply answer_request_empty_name.
Qed.

Lemma empty_name_empty_reply_witness :
  py_split 0x2F 3 (py "7//") = [py "7"; []; []]
  /\ handle_request sample_env (py "7//") world0 = (Ok tt, wrote empty_frame world0).
Proof.
  split; [reflexivity|].
  apply (empty_name_empty_reply sample_env (py "7//") world0).
  left. exists (py "7"), []. reflexivity.
Defined.

(** ** Script runs *)

Section SplitByAlphabet.

Variable env : collaborators.

Lemma alphabet_of_raises (c : Z) (e : exn) :
  alphabet_of env c = Raise e -> e = ValueError.
Proof.
  unfold alphabet_of. destruct (unicodedata_name env c); congruence.
Qed.

Lemma alphabet_of_unnamed (c : Z) :
  unicodedata_name env c = None -> alphabet_of env c = Raise ValueError.
Proof. unfold alphabet_of. intros ->. reflexivity. Qed.

(** Runs already closed stay in front of whatever the loop adds. *)
Lemma split_loop_acc (rest : pystr) :
  forall (acc strlist : list pystr) (target : pystr) (old : string),
    split_loop env rest (acc ++ strlist) target old
    = rbind (split_loop env rest strlist target old) (fun l => Ok (acc ++ l)).
Proof.
  induction rest as [|c r IH]; intros acc strlist target old; cbn [split_loop].
  - cbn [rbind]. rewrite app_assoc. reflexivity.
  - destruct (alphabet_of env c) as [a|e]; cbn [rbind]; [|reflexivity].
    destruct (String.eqb a old).
    + apply IH.
    + rewrite <- app_assoc. apply IH.
Qed.

Lemma uniform_alphabet_snoc (target : pystr) (c : Z) (a : string) :
  uniform_alphabet env target = Some a ->
  alphabet_of env c = Ok a ->
  uniform_alphabet env (target ++ [c]) = Some a.
Proof.
  destruct target as [|c0 t]; [discriminate|].
  cbn [uniform_alphabet app]. intros H Hc.
  destruct (alphabet_of env c0) as [a0|]; [|discriminate].
  rewrite forallb_app.
  destruct (forallb _ t); [|discriminate].
  assert (a0 = a) by congruence. subst a0.
  cbn [forallb andb]. rewrite Hc, String.eqb_refl. reflexivity.
Qed.

Lemma uniform_alphabet_single (c : Z) (a : string) :
  alphabet_of env c = Ok a -> uniform_alphabet env [c] = Some a.
Proof. intros H. cbn [uniform_alphabet forallb]. rewrite H. reflexivity. Qed.

Lemma uniform_alphabet_first (st : pystr) (a : string) :
  uniform_alphabet env st = Some a -> alphabet_of_first env st = Ok a.
Proof.
  destruct st as [|c r]; [discriminate|]. cbn [uniform_alphabet alphabet_of_first].
  destruct (alphabet_of env c) as [a0|]; [|discriminate].
  destruct (forallb _ r); congruence.
Qed.

(** The loop invariant of [split_by_alphabet]: with [target] the open run
    of alphabet [old], the loop returns maximal runs of [target ++ rest],
    the first of which has alphabet [old]. *)
Lemma split_loop_runs (rest : pystr) :
  forall (target : pystr) (old : string) (runs : list pystr),
    uniform_alphabet env target = Some old ->
    split_loop env rest [] target old = Ok runs ->
    exists run1 more,
      runs = run1 :: more
      /\ uniform_alphabet env run1 = Some old
      /\ List.concat runs = target ++ rest
      /\ maximal_runs env runs = true.
Proof.
  induction rest as [|c r IH]; intros target old runs Hu; cbn [split_loop].
  - intros E. assert (runs = [target]) by (cbn [app] in E; congruence). subst runs.
    exists target, []. split; [reflexivity|]. split; [exact Hu|].
    split; [reflexivity|]. cbn [maximal_runs]. rewrite Hu. reflexivity.
  - destruct (alphabet_of env c) as [a|e] eqn:Ea; cbn [rbind]; [|discriminate].
    destruct (String.eqb a old) eqn:Eq.
    + apply String.eqb_eq in Eq. subst a. intros E.
      destruct (IH (target ++ [c]) old runs (uniform_alphabet_snoc _ _ _ Hu Ea) E)
        as [run1 [more [H1 [H2 [H3 H4]]]]].
      exists run1, more. split; [exact H1|]. split; [exact H2|].
      split; [|exact H4]. rewrite H3, <- app_assoc. reflexivity.
    + change ([] ++ [target]) with ([target] ++ []).
      rewrite split_loop_acc.
      destruct (split_loop env r [] [c] a) as [l|e] eqn:El; cbn [rbind]; [|discriminate].
      intros E. assert (runs = target :: l) by (cbn [app] in E; congruence). subst runs.
      destruct (IH [c] a l (uniform_alphabet_single _ _ Ea) El)
        as [run1 [more [H1 [H2 [H3 H4]]]]].
      exists target, l. split; [reflexivity|]. split; [exact Hu|]. split.
      * cbn [List.concat]. rewrite H3. reflexivity.
      * subst l. cbn [maximal_runs]. cbn [maximal_runs] in H4.
        rewrite Hu, H2. rewrite H2 in H4.
        rewrite String.eqb_sym, Eq. cbn [negb andb]. exact H4.
Qed.

(** [split_by_alphabet] cuts its input into maximal same-alphabet runs. *)
Lemma split_by_alphabet_runs (str : pystr) (runs : list pystr) :
  split_by_alphabet env str = Ok runs ->
  List.concat runs = str /\ maximal_runs env runs = true.
Proof.
  destruct str as [|c0 rest]; cbn [split_by_alphabet]; [discriminate|].
  destruct (alphabet_of env c0) as [a|e] eqn:Ea; cbn [rbind]; [|discriminate].
  intros E.
  destruct (split_loop_runs rest [c0] a runs (uniform_alphabet_single _ _ Ea) E)
    as [run1 [more [H1 [H2 [H3 H4]]]]].
  split; assumption.
Qed.

(** It succeeds on every non-empty input whose code points all have a name. *)
Lemma split_loop_named (rest : pystr) :
  forall (strlist : list pystr) (target : pystr) (old : string),
    Forall (fun c => unicodedata_name env c <> None) rest ->
    exists runs, split_loop env rest strlist target old = Ok runs.
Proof.
  induction rest as [|c r IH]; intros strlist target old Hn; cbn [split_loop].
  - eauto.
  - inversion Hn as [|? ? Hc Hr]; subst. unfold alphabet_of at 1.
    destruct (unicodedata_name env c) as [n|]; [|congruence]. cbn [rbind].
    destruct (String.eqb _ old); apply IH; assumption.
Qed.

Lemma split_by_alphabet_named (str : pystr) :
  str <> [] ->
  Forall (fun c => unicodedata_name env c <> None) str ->
  exists runs, split_by_alphabet env str = Ok runs.
Proof.
  destruct str as [|c0 rest]; [congruence|]. intros _ Hn.
  inversion Hn as [|? ? Hc Hr]; subst. cbn [split_by_alphabet]. unfold alphabet_of.
  destruct (unicodedata_name env c0) as [n|]; [|congruence]. cbn [rbind].
  apply split_loop_named. assumption.
Qed.

(** It raises [ValueError] as soon as one code point has no name. *)
Lemma split_loop_unnamed (rest : pystr) (c : Z) :
  In c rest -> unicodedata_name env c = None ->
  forall (strlist : list pystr) (target : pystr) (old : string),
    split_loop env rest strlist target old = Raise ValueError.
Proof.
  intros Hin Hc. induction rest as [|d r IH]; [contradiction|].
  intros strlist target old. cbn [split_loop].
  destruct (alphabet_of env d) as [a|e] eqn:Ed; cbn [rbind].
  - destruct Hin as [->|Hin].
    + rewrite (alphabet_of_unnamed c Hc) in Ed. discriminate.
    + destruct (String.eqb a old); apply IH; assumption.
  - apply alphabet_of_raises in Ed. subst e. reflexivity.
Qed.

Lemma split_by_alphabet_unnamed (str : pystr) (c : Z) :
  In c str -> unicodedata_name env c = None ->
  split_by_alphabet env str = Raise ValueError.
Proof.
  intros Hin Hc. destruct str as [|c0 rest]; [contradiction|].
  cbn [split_by_alphabet].
  destruct (alphabet_of env c0) as [a|e] eqn:E0; cbn [rbind].
  - destruct Hin as [->|Hin].
    + rewrite (alphabet_of_unnamed c Hc) in E0. discriminate.
    + apply split_loop_unnamed with (c := c); assumption.
  - apply alphabet_of_raises in E0. subst e. reflexivity.
Qed.

End SplitByAlphabet.

(** ** The run strategies *)

Section Strategies.

Variable env : collaborators.

Lemma maximal_runs_uniform (runs : list pystr) :
  maximal_runs env runs = true ->
  Forall (fun st => exists a, uniform_alphabet env st = Some a) runs.
Proof.
  induction runs as [|st more IH]; [constructor|].
  cbn [maximal_runs]. destruct (uniform_alphabet env st) as [a|] eqn:Ea; [|discriminate].
  intros H. apply andb_true_iff in H. destruct H as [_ H].
  constructor; [eauto | apply IH; exact H].
Qed.

(** All THAI runs romanized: the loop appends one piece per run. *)
Lemma thai_loop_pieces (runs : list pystr) :
  forall (latin : pystr) (w : world),
    Forall (fun st => exists a, uniform_alphabet env st = Some a) runs ->
    (forall st, In st runs -> alphabet_of_first env st = Ok "THAI"%string ->
                exists out, th2roman env st = Ok out) ->
    exists pieces,
      Forall2 (thai_piece env strip_marker_chars) runs pieces
      /\ thai_loop env runs latin w = (Ok (PyStr (latin ++ List.concat pieces)), w).
Proof.
  induction runs as [|st more IH]; intros latin w Hu Heng.
  - exists []. split; [constructor|]. cbn [thai_loop List.concat ret].
    rewrite app_nil_r. reflexivity.
  - inversion Hu as [|? ? [a Ha] Hmore]; subst.
    apply uniform_alphabet_first in Ha.
    cbn [thai_loop]. unfold bind, lift. rewrite Ha.
    destruct (String.eqb a "THAI") eqn:Et.
    + apply String.eqb_eq in Et. subst a.
      destruct (Heng st (or_introl eq_refl) Ha) as [out Hout]. rewrite Hout.
      destruct (IH (latin ++ py_rstrip (py_rstrip_chars (py "<s/>") out)) w Hmore)
        as [pieces [Hp Hl]].
      { intros st' Hin. apply Heng. right. exact Hin. }
      exists (strip_marker_chars out :: pieces). split.
      * constructor; [|exact Hp]. unfold thai_piece. rewrite Ha.
        cbn [String.eqb Ascii.eqb Bool.eqb andb]. exists out. split; [exact Hout|reflexivity].
      * rewrite Hl. cbn [List.concat]. rewrite <- app_assoc. reflexivity.
    + destruct (IH (latin ++ st) w Hmore) as [pieces [Hp Hl]].
      { intros st' Hin. apply Heng. right. exact Hin. }
      exists (st :: pieces). split.
      * constructor; [|exact Hp]. unfold thai_piece. rewrite Ha, Et. reflexivity.
      * rewrite Hl. cbn [List.concat]. rewrite <- app_assoc. reflexivity.
Qed.

(** One THAI run on which the engine raises: the loop returns [None],
    whatever was romanized before, and logs the run it stopped at. *)
Lemma thai_loop_failure (runs : list pystr) :
  forall (latin : pystr) (w : world),
    Forall (fun st => exists a, uniform_alphabet env st = Some a) runs ->
    (exists st e, In st runs /\ alphabet_of_first env st = Ok "THAI"%string
                  /\ th2roman env st = Raise e) ->
    exists st e,
      In st runs /\ th2roman env st = Raise e
      /\ thai_loop env runs latin w = (Ok PyNone, logged (TltkError st) w).
Proof.
  induction runs as [|st more IH]; intros latin w Hu [bad [e [Hin [Hb He]]]].
  - contradiction.
  - inversion Hu as [|? ? [a Ha] Hmore]; subst.
    apply uniform_alphabet_first in Ha.
    cbn [thai_loop]. unfold bind, lift. rewrite Ha.
    assert (Hrest : bad = st \/ (bad <> st /\ In bad more)).
    { destruct (list_eq_dec Z.eq_dec bad st); [left; assumption|].
      right. split; [assumption|]. destruct Hin; [congruence|assumption]. }
    destruct (String.eqb a "THAI") eqn:Et.
    + destruct (th2roman env st) as [out|e0] eqn:Eo.
      * destruct Hrest as [->|[_ Hin']]; [congruence|].
        destruct (IH (latin ++ py_rstrip (py_rstrip_chars (py "<s/>") out)) w Hmore)
          as [st' [e' [H1 [H2 H3]]]]; [eauto|].
        exists st', e'. split; [right; exact H1|]. split; assumption.
      * exists st, e0. split; [left; reflexivity|]. split; [exact Eo|]. reflexivity.
    + destruct Hrest as [->|[_ Hin']].
      { rewrite Ha in Hb. assert (a = "THAI"%string) by congruence. subst a.
        discriminate. }
      destruct (IH (latin ++ st) w Hmore) as [st' [e' [H1 [H2 H3]]]]; [eauto|].
      exists st', e'. split; [right; exact H1|]. split; assumption.
Qed.

Lemma cantonese_loop_failure (runs : list pystr) :
  forall (latin : pystr) (w : world),
    Forall (fun st => exists a, uniform_alphabet env st = Some a) runs ->
    (exists st e, In st runs /\ alphabet_of_first env st = Ok "CJK"%string
                  /\ jyutping env st = Raise e) ->
    exists st e,
      In st runs /\ jyutping env st = Raise e
      /\ cantonese_loop env runs latin w = (Ok PyNone, logged (JyutpingError st) w).
Proof.
  induction runs as [|st more IH]; intros latin w Hu [bad [e [Hin [Hb He]]]].
  - contradiction.
  - inversion Hu as [|? ? [a Ha] Hmore]; subst.
    apply uniform_alphabet_first in Ha.
    cbn [cantonese_loop]. unfold bind, lift. rewrite Ha.
    assert (Hrest : bad = st \/ (bad <> st /\ In bad more)).
    { destruct (list_eq_dec Z.eq_dec bad st); [left; assumption|].
      right. split; [assumption|]. destruct Hin; [congruence|assumption]. }
    destruct (String.eqb a "CJK") eqn:Et.
    + destruct (jyutping env st) as [out|e0] eqn:Eo.
      * destruct Hrest as [->|[_ Hin']]; [congruence|].
        destruct (IH (latin ++ out) w Hmore) as [st' [e' [H1 [H2 H3]]]]; [eauto|].
        exists st', e'. split; [right; exact H1|]. split; assumption.
      * exists st, e0. split; [left; reflexivity|]. split; [exact Eo|]. reflexivity.
    + destruct Hrest as [->|[_ Hin']].
      { rewrite Ha in Hb. assert (a = "CJK"%string) by congruence. subst a.
        discriminate. }
      destruct (IH (latin ++ st) w Hmore) as [st' [e' [H1 [H2 H3]]]]; [eauto|].
      exists st', e'. split; [right; exact H1|]. split; assumption.
Qed.

(** The whole strategy reports [None] when the engine raises on a run. *)
Lemma thai_transcript_failure (inpstr : pystr) (runs : list pystr) (w : world) :
  split_by_alphabet env inpstr = Ok runs ->
  (exists st e, In st runs /\ alphabet_of_first env st = Ok "THAI"%string
                /\ th2roman env st = Raise e) ->
  exists st e,
    In st runs /\ th2roman env st = Raise e
    /\ thai_transcript env inpstr w = (Ok PyNone, logged (TltkError st) w).
Proof.
  intros Hs Hbad. unfold thai_transcript, bind, lift. rewrite Hs.
  apply thai_loop_failure; [|exact Hbad].
  apply maximal_runs_uniform. apply (split_by_alphabet_runs env inpstr runs Hs).
Qed.

Lemma cantonese_transcript_failure (inpstr : pystr) (runs : list pystr) (w : world) :
  split_by_alphabet env inpstr = Ok runs ->
  (exists st e, In st runs /\ alphabet_of_first env st = Ok "CJK"%string
                /\ jyutping env st = Raise e) ->
  exists st e,
    In st runs /\ jyutping env st = Raise e
    /\ cantonese_transcript env inpstr w = (Ok PyNone, logged (JyutpingError st) w).
Proof.
  intros Hs Hbad. unfold cantonese_transcript, bind, lift. rewrite Hs.
  apply cantonese_loop_failure; [|exact Hbad].
  apply maximal_runs_uniform. apply (split_by_alphabet_runs env inpstr runs Hs).
Qed.

(** The dispatcher hands [th] to the Thai strategy, [mo] and [hk] to the
    Cantonese one. *)
Lemma transcript_th (unistr : pystr) :
  transcript env (py "th") unistr = thai_transcript env unistr.
Proof. reflexivity. Qed.

Lemma transcript_mo (unistr : pystr) :
  transcript env (py "mo") unistr = cantonese_transcript env unistr.
Proof. reflexivity. Qed.

Lemma transcript_hk (unistr : pystr) :
  transcript env (py "hk") unistr = cantonese_transcript env unistr.
Proof. reflexivity. Qed.

(** A reply that is not text: logged, answered with the empty reply. *)
Lemma answer_request_non_text (id cc name : pystr) (v : pyval) (w w1 : world) :
  name <> [] ->
  transcript env cc name w = (Ok v, w1) ->
  isinstance_str v = false ->
  answer_request env id cc name w
  = (Ok tt, wrote empty_frame (logged (NonStringReply id cc name v) w1)).
Proof.
  intros Hn Ht Hv. unfold answer_request, try_except, bind.
  replace (pystr_eqb name []) with false
    by (unfold pystr_eqb; destruct (list_eq_dec Z.eq_dec name []); congruence).
  cbn [negb]. rewrite Ht.
  destruct v; try discriminate; unfold stderr_write; rewrite send_reply_empty;
    reflexivity.
Qed.

(** An exception out of the dispatcher: logged, answered with the empty
    reply. *)
Lemma answer_request_raise (id cc name : pystr) (e : exn) (w w1 : world) :
  name <> [] ->
  transcript env cc name w = (Raise e, w1) ->
  answer_request env id cc name w
  = (Ok tt, wrote empty_frame (logged (RequestError id e) w1)).
Proof.
  intros Hn Ht. unfold answer_request, try_except, bind.
  replace (pystr_eqb name []) with false
    by (unfold pystr_eqb; destruct (list_eq_dec Z.eq_dec name []); congruence).
  cbn [negb]. rewrite Ht. unfold stderr_write. rewrite send_reply_empty.
  reflexivity.
Qed.

(** After a request that was answered, the loop goes on with the reader. *)
Lemma handle_connection_next
  (reader reader' : pybytes) (data id cc name : pystr) (w w1 w2 : world) :
  read_request env reader = (Ok (Some data), reader') ->
  parse_request env data w = (Ok (id, cc, name), w1) ->
  answer_request env id cc name w1 = (Ok tt, w2) ->
  handle_request env data w = (Ok tt, w2)
  /\ handle_connection env reader w = handle_connection env reader' w2.
Proof.
  intros Hr Hp Ha.
  assert (Hh : handle_request env data w = (Ok tt, w2)).
  { unfold handle_request, bind. rewrite Hp. exact Ha. }
  split; [exact Hh|]. rewrite handle_connection_unfold, Hr, Hh. reflexivity.
Qed.

End Strategies.

(** ** Failure isolation *)

(** C6. When the Thai engine (country [th]) or the Cantonese engine
    (country [mo] or [hk]) raises on a run, the dispatcher returns [None]:
    nothing of what was romanized before, and the run is logged.  When the
    dispatcher returns something that is not text, the request is logged,
    the empty reply is written, and the handler goes on with the next
    request on the reader. *)
Theorem strategy_failure_isolated (env : collaborators) :
  (forall (inpstr : pystr) (runs : list pystr) (w : world),
      split_by_alphabet env inpstr = Ok runs ->
      (exists st e, In st runs /\ alphabet_of_first env st = Ok "THAI"%string
                    /\ th2roman env st = Raise e) ->
      exists st e,
        In st runs /\ th2roman env st = Raise e
        /\ transcript env (py "th") inpstr w = (Ok PyNone, logged (TltkError st) w))
  /\ (forall (cc inpstr : pystr) (runs : list pystr) (w : world),
         cc = py "mo" \/ cc = py "hk" ->
         split_by_alphabet env inpstr = Ok runs ->
         (exists st e, In st runs /\ alphabet_of_first env st = Ok "CJK"%string
                       /\ jyutping env st = Raise e) ->
         exists st e,
           In st runs /\ jyutping env st = Raise e
           /\ transcript env cc inpstr w = (Ok PyNone, logged (JyutpingError st) w))
  /\ (forall (reader reader' : pybytes) (data id cc name : pystr) (v : pyval)
             (w w1 w2 : world),
         read_request env reader = (Ok (Some data), reader') ->
         parse_request env data w = (Ok (id, cc, name), w1) ->
         name <> [] ->
         transcript env cc name w1 = (Ok v, w2) ->
         isinstance_str v = false ->
         handle_request env data w
         = (Ok tt, wrote empty_frame (logged (NonStringReply id cc name v) w2))
         /\ handle_connection env reader w
            = handle_connection env reader'
                (wrote empty_frame (logged (NonStringReply id cc name v) w2))).
Proof.
  split; [|split].
  - intros inpstr runs w Hs Hbad. rewrite transcript_th.
    apply thai_transcript_failure with (runs := runs); assumption.
  - intros cc inpstr runs w [-> | ->] Hs Hbad;
      [rewrite transcript_mo | rewrite transcript_hk];
      apply cantonese_transcript_failure with (runs := runs); assumption.
  - intros reader reader' data id cc name v w w1 w2 Hr Hp Hn Ht Hv.
    apply handle_connection_next with (id := id) (cc := cc) (name := name) (w1 := w1);
      try assumption.
    apply answer_request_non_text; assumption.
Qed.

Lemma strategy_failure_isolated_witness :
  (exists st e,
      In st [[0x0E01; 0x0E32]; [0x61]] /\ th2roman failing_env st = Raise e
      /\ transcript failing_env (py "th") [0x0E01; 0x0E32; 0x61] world0
         = (Ok PyNone, logged (TltkError st) world0))
  /\ (exists st e,
         In st [[0x61]; [0x4EAC]] /\ jyutping failing_env st = Raise e
         /\ transcript failing_env (py "hk") [0x61; 0x4EAC] world0
            = (Ok PyNone, logged (JyutpingError st) world0))
  /\ handle_connection failing_env
       (frame (py "5/th/" ++ [0xE0; 0xB8; 0x81]) ++ frame (py "6/jp/a")) world0
     = handle_connection failing_env (frame (py "6/jp/a"))
         (wrote empty_frame
            (logged (NonStringReply (py "5") (py "th") [0x0E01] PyNone)
               (logged (TltkError [0x0E01]) world0))).
Proof.
  destruct (strategy_failure_isolated failing_env) as [Hthai [Hcan Hnext]].
  split; [|split].
  - apply (Hthai [0x0E01; 0x0E32; 0x61] [[0x0E01; 0x0E32]; [0x61]] world0);
      [reflexivity|].
    exists [0x0E01; 0x0E32], (EngineError 1).
    split; [left; reflexivity|]. split; reflexivity.
  - apply (Hcan (py "hk") [0x61; 0x4EAC] [[0x61]; [0x4EAC]] world0);
      [right; reflexivity | reflexivity |].
    exists [0x4EAC], (EngineError 2).
    split; [right; left; reflexivity|]. split; reflexivity.
  - apply (Hnext (frame (py "5/th/" ++ [0xE0; 0xB8; 0x81]) ++ frame (py "6/jp/a"))
             (frame (py "6/jp/a")) (py "5/th/" ++ [0x0E01]) (py "5") (py "th")
             [0x0E01] PyNone world0 world0 (logged (TltkError [0x0E01]) world0));
      [reflexivity | reflexivity | discriminate | reflexivity | reflexivity].
Defined.

(** C10. A name that goes to the Thai or the Cantonese strategy (country
    [th], [mo] or [hk]) and holds a code point without a Unicode name makes
    [split_by_alphabet] raise [ValueError] before any engine is called; the
    handler logs the error, writes the empty reply whatever else the name
    holds, and goes on with the next request on the reader. *)
Theorem unnamed_codepoint_empty_reply
  (env : collaborators) (reader reader' : pybytes) (data id cc name : pystr)
  (c : Z) (w w1 : world) :
  read_request env reader = (Ok (Some data), reader') ->
  parse_request env data w = (Ok (id, cc, name), w1) ->
  cc = py "th" \/ cc = py "mo" \/ cc = py "hk" ->
  In c name ->
  unicodedata_name env c = None ->
  split_by_alphabet env name = Raise ValueError
  /\ transcript env cc name w1 = (Raise ValueError, w1)
  /\ handle_request env data w
     = (Ok tt, wrote empty_frame (logged (RequestError id ValueError) w1))
  /\ handle_connection env reader w
     = handle_connection env reader'
         (wrote empty_frame (logged (RequestError id ValueError) w1)).
Proof.
  intros Hr Hp Hcc Hin Hc.
  pose proof (split_by_alphabet_unnamed env name c Hin Hc) as Hs.
  assert (Ht : transcript env cc name w1 = (Raise ValueError, w1)).
  { destruct Hcc as [-> | [-> | ->]];
      [rewrite transcript_th; unfold thai_transcript
      |rewrite transcript_mo; unfold cantonese_transcript
      |rewrite transcript_hk; unfold cantonese_transcript];
      unfold bind, lift; rewrite Hs; reflexivity. }
  split; [exact Hs|]. split; [exact Ht|].
  apply handle_connection_next with (id := id) (cc := cc) (name := name) (w1 := w1);
    try assumption.
  apply answer_request_raise; [|exact Ht].
  intros ->. contradiction.
Qed.

Lemma unnamed_codepoint_empty_reply_witness :
  unicodedata_name sample_env 0x09 = None
  /\ transcript sample_env (py "th") [0x0E01; 0x09; 0x0E02] world0
     = (Raise ValueError, world0)
  /\ handle_connection sample_env
       (frame (py "8/th/" ++ [0xE0; 0xB8; 0x81; 0x09; 0xE0; 0xB8; 0x82])
        ++ frame (py "9/jp/a")) world0
     = handle_connection sample_env (frame (py "9/jp/a"))
         (wrote empty_frame (logged (RequestError (py "8") ValueError) world0)).
Proof.
  split; [reflexivity|].
  destruct (unnamed_codepoint_empty_reply sample_env
              (frame (py "8/th/" ++ [0xE0; 0xB8; 0x81; 0x09; 0xE0; 0xB8; 0x82])
               ++ frame (py "9/jp/a"))
              (frame (py "9/jp/a")) (py "8/th/" ++ [0x0E01; 0x09; 0x0E02])
              (py "8") (py "th") [0x0E01; 0x09; 0x0E02] 0x09 world0 world0)
    as [_ [Ht [_ Hn]]];
    [reflexivity | reflexivity | left; reflexivity
    | right; left; reflexivity | reflexivity |].
  split; [exact Ht | exact Hn].
Defined.

(** ** Script classification and the country of a coordinate request *)

Lemma existsb_In_Z (p : Z -> bool) (text : pystr) (c : Z) :
  In c text -> p c = true -> existsb p text = true.
Proof. intros Hin Hp. apply existsb_exists. exists c. split; assumption. Qed.

Lemma existsb_none_Z (p : Z -> bool) (text : pystr) :
  (forall c, In c text -> p c = false) -> existsb p text = false.
Proof.
  intros H. induction text as [|c r IH]; [reflexivity|]. cbn [existsb].
  rewrite (H c (or_introl eq_refl)), IH; [reflexivity|].
  intros d Hd. apply H. right. exact Hd.
Qed.

(** Every assigned character of the Thai block lies strictly between the
    two bounds that [contains_thai] tests. *)
Lemma thai_assigned_inside (c : Z) :
  thai_assigned c = true -> thai_block c = true /\ c <> 0x0E00 /\ c <> 0x0E7F.
Proof.
  unfold thai_assigned, thai_block.
  rewrite Bool.orb_true_iff, !Bool.andb_true_iff, !Z.leb_le. lia.
Qed.

(** A name with a code point strictly inside U+4E00..U+9FFF, resolver
    ready: the country is what [co2c.getCountry] returns. *)
Lemma coordinate_country_cjk
  (env : collaborators) (lon lat name : pystr) (c : Z) :
  co2c_ready env = true -> In c name -> 0x4E00 < c < 0x9FFF ->
  coordinate_country env lon lat name = Coord2Country_getCountry env lon lat.
Proof.
  intros Hr Hin Hc. unfold coordinate_country. rewrite Hr.
  replace (contains_cjk name) with true; [reflexivity|].
  symmetry. apply existsb_In_Z with (c := c); [exact Hin|].
  rewrite Bool.andb_true_iff, Z.gtb_ltb, !Z.ltb_lt. lia.
Qed.

(** C3. The first ideograph of the CJK block, U+4E00, is not taken for
    CJK: for the coordinate request [1/139.6/35.6/] followed by U+4E00,
    with a ready resolver that would answer [jp], the country handed to the
    dispatcher is empty and the resolver is not called. *)
Theorem cjk_block_start_not_resolved :
  cjk_block 0x4E00 = true
  /\ co2c_ready sample_env = true
  /\ fst (Coord2Country_getCountry sample_env (py "139.6") (py "35.6") world0)
     = Ok (py "jp")
  /\ contains_cjk [0x4E00] = false
  /\ parse_request sample_env (py "1/139.6/35.6/" ++ [0x4E00]) world0
     = (Ok (py "1", [], [0x4E00]), world0).
Proof. repeat split. Qed.

(** The Thai block's first code point alone: in the block, not CJK, ready
    resolver, and yet the country is empty, not [th]. *)
Lemma thai_block_start_counterexample :
  co2c_ready sample_env = true
  /\ py_split 0x2F 3 (py "2/100.5/13.7/" ++ [0x0E00])
     = [py "2"; py "100.5"; py "13.7"; [0x0E00]]
  /\ existsb thai_block [0x0E00] = true
  /\ existsb cjk_block [0x0E00] = false
  /\ parse_request sample_env (py "2/100.5/13.7/" ++ [0x0E00]) world0
     = (Ok (py "2", [], [0x0E00]), world0)
  /\ ([] : pystr) <> py "th".
Proof. repeat split. discriminate. Qed.

(** C4, amended. A coordinate request with a ready resolver whose name
    holds a code point of the Thai block other than the block's two end
    points U+0E00 and U+0E7F (both unassigned), and no code point of the CJK
    block: the country handed to the dispatcher is exactly [th], and
    neither the resolver nor its backend is called while the request is
    handled. *)
Theorem thai_name_country_th
  (env : collaborators) (data id lon lat name : pystr) (c : Z) (w : world) :
  co2c_ready env = true ->
  py_split 0x2F 3 data = [id; lon; lat; name] ->
  In c name -> thai_block c = true -> c <> 0x0E00 -> c <> 0x0E7F ->
  (forall d, In d name -> cjk_block d = false) ->
  parse_request env data w = (Ok (id, py "th", name), w)
  /\ resolver_calls (snd (handle_request env data w)) = resolver_calls w
  /\ backend_queries (snd (handle_request env data w)) = backend_queries w.
Proof.
  intros Hr Hs Hin Hb H0 H7 Hcjk.
  assert (Hp : parse_request env data w = (Ok (id, py "th", name), w)).
  { unfold parse_request. rewrite Hs.
    cbn [List.length Z.of_nat Pos.of_succ_nat Pos.succ Z.eqb Pos.eqb unpack4].
    cbv beta iota delta [bind lift]. unfold coordinate_country. rewrite Hr.
    replace (contains_cjk name) with false.
    2:{ symmetry. apply existsb_none_Z. intros d Hd. specialize (Hcjk d Hd).
        unfold cjk_block in Hcjk. apply Bool.andb_false_iff in Hcjk.
        apply Bool.andb_false_iff. rewrite Z.gtb_ltb, !Z.ltb_ge.
        rewrite !Z.leb_gt in Hcjk. lia. }
    replace (contains_thai name) with true.
    2:{ symmetry. apply existsb_In_Z with (c := c); [exact Hin|].
        unfold thai_block in Hb. apply Bool.andb_true_iff in Hb.
        rewrite !Z.leb_le in Hb.
        rewrite Bool.andb_true_iff, Z.gtb_ltb, !Z.ltb_lt. lia. }
    reflexivity. }
  split; [exact Hp|].
  assert (Hh : handle_request env data w = answer_request env id (py "th") name w).
  { unfold handle_request, bind. rewrite Hp. reflexivity. }
  rewrite Hh. apply geo_untouched_answer.
Qed.

Lemma thai_name_country_th_witness :
  thai_block 0x0E01 = true
  /\ parse_request sample_env (py "2/100.5/13.7/" ++ [0x61; 0x0E01]) world0
     = (Ok (py "2", py "th", [0x61; 0x0E01]), world0).
Proof.
  split; [reflexivity|].
  apply (thai_name_country_th sample_env (py "2/100.5/13.7/" ++ [0x61; 0x0E01])
           (py "2") (py "100.5") (py "13.7") [0x61; 0x0E01] 0x0E01 world0);
    [reflexivity | reflexivity | right; left; reflexivity | reflexivity
    | discriminate | discriminate |].
  intros d [<- | [<- | []]]; reflexivity.
Defined.

(** ** The Thai strategy *)

(** When the engine's output ends in a space and the marker, the clean-up
    of the code leaves the text before them, without trailing whitespace. *)
Lemma strip_marker_chars_spaced (body : pystr) :
  strip_marker_chars (body ++ py " <s/>") = py_rstrip body.
Proof.
  unfold strip_marker_chars, py_rstrip_chars, py_rstrip.
  rewrite rev_app_distr.
  change (rev (py " <s/>")) with ([0x3E; 0x2F; 0x73; 0x3C; 0x20]).
  change (dropwhile (fun c => mem_cp c marker) ([0x3E; 0x2F; 0x73; 0x3C; 0x20] ++ rev body))
    with (0x20 :: rev body).
  cbn [rev]. rewrite rev_app_distr, rev_involutive. reflexivity.
Qed.

(** The claim does not hold of every input, nor of every engine output:
    a code point without a name (here a tab) and the empty input make the
    strategy raise, an engine that raises makes it return [None], and an
    output that ends in a marker character right before the marker loses
    that character too ([mas<s/>] becomes [ma], not [mas]). *)
Lemma thai_strategy_counterexample :
  ~ thai_strategy_result sample_env strip_marker_token [0x0E01; 0x09]
  /\ ~ thai_strategy_result sample_env strip_marker_token []
  /\ ~ thai_strategy_result failing_env strip_marker_token [0x0E01]
  /\ ~ thai_strategy_result tight_marker_env strip_marker_token [0x0E01]
  /\ thai_transcript sample_env [0x0E01; 0x09] world0 = (Raise ValueError, world0)
  /\ thai_transcript tight_marker_env [0x0E01] world0 = (Ok (PyStr (py "ma")), world0)
  /\ strip_marker_token (py "mas<s/>") = py "mas".
Proof.
  split; [|split; [|split; [|split]]].
  - intros [runs [pieces [Hs _]]]. discriminate Hs.
  - intros [runs [pieces [Hs _]]]. discriminate Hs.
  - intros [runs [pieces [_ [_ [_ [_ Ht]]]]]]. specialize (Ht world0). discriminate Ht.
  - intros [runs [pieces [Hs [_ [_ [Hp Ht]]]]]].
    assert (runs = [[0x0E01]]) by (vm_compute in Hs; congruence). subst runs.
    inversion Hp as [|st piece more rest H1 H2]; subst.
    inversion H2; subst.
    unfold thai_piece in H1. cbn in H1. destruct H1 as [out [Ho ->]].
    injection Ho as <-.
    specialize (Ht world0). vm_compute in Ht. discriminate Ht.
  - repeat split.
Qed.

(** The pieces are determined by the runs. *)
Lemma thai_pieces_unique
  (env : collaborators) (strip : pystr -> pystr) (runs : list pystr) :
  forall p1 p2,
    Forall2 (thai_piece env strip) runs p1 ->
    Forall2 (thai_piece env strip) runs p2 -> p1 = p2.
Proof.
  induction runs as [|st more IH]; intros p1 p2 H1 H2;
    inversion H1 as [|? a1 ? r1 Ha1 Hr1]; inversion H2 as [|? a2 ? r2 Ha2 Hr2]; subst.
  - reflexivity.
  - f_equal; [|apply IH; assumption].
    unfold thai_piece in Ha1, Ha2.
    destruct (alphabet_of_first env st) as [a|]; [|contradiction].
    destruct (String.eqb a "THAI").
    + destruct Ha1 as [o1 [E1 ->]]. destruct Ha2 as [o2 [E2 ->]]. congruence.
    + congruence.
Qed.

(** What the code computes, whatever the engine returns: a THAI run gives
    the engine's output without its trailing code points out of [<], [s],
    [/], [>] and then without trailing whitespace. *)
Lemma thai_transcript_pieces (env : collaborators) (inpstr : pystr) :
  inpstr <> [] ->
  Forall (fun c => unicodedata_name env c <> None) inpstr ->
  (forall runs,
      split_by_alphabet env inpstr = Ok runs ->
      forall st, In st runs ->
      alphabet_of_first env st = Ok "THAI"%string ->
      exists out, th2roman env st = Ok out) ->
  thai_strategy_result env strip_marker_chars inpstr.
Proof.
  intros Hne Hnamed Heng.
  destruct (split_by_alphabet_named env inpstr Hne Hnamed) as [runs Hs].
  destruct (split_by_alphabet_runs env inpstr runs Hs) as [Hc Hm].
  destruct (thai_loop_pieces env runs [] world0 (maximal_runs_uniform env runs Hm)
              (Heng runs Hs)) as [pieces [Hp _]].
  exists runs, pieces. repeat split; try assumption.
  intros w. unfold thai_transcript, bind, lift. rewrite Hs.
  destruct (thai_loop_pieces env runs [] w (maximal_runs_uniform env runs Hm)
              (Heng runs Hs)) as [pieces' [Hp' Hl]].
  rewrite Hl. cbn [app].
  rewrite (thai_pieces_unique env strip_marker_chars runs pieces' pieces Hp' Hp).
  reflexivity.
Qed.

Lemma remove_suffix_app (body suffix : pystr) :
  remove_suffix suffix (body ++ suffix) = body.
Proof.
  unfold remove_suffix. rewrite length_app.
  replace (List.length suffix <=? List.length body + List.length suffix)%nat
    with true by (symmetry; apply Nat.leb_le; lia).
  replace (List.length body + List.length suffix - List.length suffix)%nat
    with (List.length body + 0)%nat by lia.
  rewrite skipn_app, firstn_app, skipn_all2, firstn_all2 by lia.
  replace (List.length body + 0 - List.length body)%nat with 0%nat by lia.
  cbn [skipn firstn app]. rewrite app_nil_r.
  unfold pystr_eqb. destruct (list_eq_dec Z.eq_dec suffix suffix); [|congruence].
  reflexivity.
Qed.

(** On a marker-terminated output the clean-up of the code is the
    clean-up the specification describes. *)
Lemma strip_marker_agree (out : pystr) :
  marker_terminated out = true -> strip_marker_chars out = strip_marker_token out.
Proof.
  unfold marker_terminated.
  destruct (rev out) as [|c4 [|c3 [|c2 [|c1 before]]]] eqn:E; try discriminate.
  intros H. apply Bool.andb_true_iff in H. destruct H as [Hm Hb].
  unfold pystr_eqb in Hm.
  destruct (list_eq_dec Z.eq_dec [c1; c2; c3; c4] marker) as [Em|]; [|discriminate].
  assert (Eo : out = rev before ++ marker).
  { rewrite <- (rev_involutive out), E. cbn [rev]. rewrite <- Em.
    rewrite <- !app_assoc. reflexivity. }
  assert (E4 : c4 = 0x3E) by (unfold marker in Em; cbv in Em; congruence).
  assert (E3 : c3 = 0x2F) by (unfold marker in Em; cbv in Em; congruence).
  assert (E2 : c2 = 0x73) by (unfold marker in Em; cbv in Em; congruence).
  assert (E1 : c1 = 0x3C) by (unfold marker in Em; cbv in Em; congruence).
  subst c1 c2 c3 c4.
  assert (Hc : py_rstrip_chars marker out = rev before).
  { unfold py_rstrip_chars. rewrite E. f_equal.
    change (dropwhile (fun c => mem_cp c marker) (0x3E :: 0x2F :: 0x73 :: 0x3C :: before))
      with (dropwhile (fun c => mem_cp c marker) before).
    destruct before as [|c r]; [reflexivity|]. cbn [dropwhile].
    apply Bool.negb_true_iff in Hb. rewrite Hb. reflexivity. }
  assert (Hr : py_rstrip out = out).
  { unfold py_rstrip. rewrite E.
    change (dropwhile py_isspace (0x3E :: 0x2F :: 0x73 :: 0x3C :: before))
      with (0x3E :: 0x2F :: 0x73 :: 0x3C :: before).
    rewrite <- E. apply rev_involutive. }
  unfold strip_marker_chars, strip_marker_token.
  rewrite Hc, Hr, Eo, remove_suffix_app. reflexivity.
Qed.

Lemma thai_pieces_token (env : collaborators) (runs pieces : list pystr) :
  Forall2 (thai_piece env strip_marker_chars) runs pieces ->
  (forall st, In st runs -> alphabet_of_first env st = Ok "THAI"%string ->
              exists out, th2roman env st = Ok out /\ marker_terminated out = true) ->
  Forall2 (thai_piece env strip_marker_token) runs pieces.
Proof.
  intros Hp. induction Hp as [|st piece more rest H1 H2 IH]; intros Heng;
    constructor.
  - unfold thai_piece in H1. unfold thai_piece.
    destruct (alphabet_of_first env st) as [a|] eqn:Ea; [|contradiction].
    destruct (String.eqb a "THAI") eqn:Et; [|exact H1].
    apply String.eqb_eq in Et. subst a.
    destruct H1 as [out [Ho ->]].
    destruct (Heng st (or_introl eq_refl) Ea) as [out' [Ho' Hmt]].
    assert (out' = out) by congruence. subst out'.
    exists out. split; [exact Ho|]. apply strip_marker_agree. exact Hmt.
  - apply IH. intros st' Hin. apply Heng. right. exact Hin.
Qed.

(** C5, amended. For a non-empty input whose code points all have a
    Unicode name, and a Thai engine that on each THAI run returns an output
    ending in the marker token [<s/>], the text before the token not ending
    in one of [<], [s], [/], [>]: the input is cut into maximal
    same-alphabet runs; each run whose first code point has the name prefix
    THAI is replaced by the engine's output without the trailing marker
    token and the whitespace before it; every other run is kept as it is;
    the pieces are concatenated in order and returned. *)
Theorem thai_transcript_runs (env : collaborators) (inpstr : pystr) :
  inpstr <> [] ->
  Forall (fun c => unicodedata_name env c <> None) inpstr ->
  (forall runs,
      split_by_alphabet env inpstr = Ok runs ->
      forall st, In st runs ->
      alphabet_of_first env st = Ok "THAI"%string ->
      exists out, th2roman env st = Ok out /\ marker_terminated out = true) ->
  thai_strategy_result env strip_marker_token inpstr.
Proof.
  intros Hne Hnamed Heng.
  destruct (thai_transcript_pieces env inpstr Hne Hnamed)
    as [runs [pieces [Hs [Hc [Hm [Hp Ht]]]]]].
  { intros runs Hs st Hin Ha. destruct (Heng runs Hs st Hin Ha) as [out [Ho _]].
    exists out. exact Ho. }
  exists runs, pieces. split; [exact Hs|]. split; [exact Hc|]. split; [exact Hm|].
  split; [|exact Ht].
  apply thai_pieces_token; [exact Hp | exact (Heng runs Hs)].
Qed.

Lemma thai_transcript_runs_witness :
  split_by_alphabet sample_env [0x0E01; 0x0E32; 0x20; 0x61; 0x62; 0x0E02]
  = Ok [[0x0E01; 0x0E32]; [0x20]; [0x61; 0x62]; [0x0E02]]
  /\ thai_transcript sample_env [0x0E01; 0x0E32; 0x20; 0x61; 0x62; 0x0E02] world0
     = (Ok (PyStr (py "krungthep abkrungthep")), world0)
  /\ thai_strategy_result sample_env strip_marker_token
       [0x0E01; 0x0E32; 0x20; 0x61; 0x62; 0x0E02].
Proof.
  split; [reflexivity|]. split; [reflexivity|].
  apply (thai_transcript_runs sample_env [0x0E01; 0x0E32; 0x20; 0x61; 0x62; 0x0E02]).
  - discriminate.
  - repeat constructor; discriminate.
  - intros runs _ st _ _. exists (py "krungthep <s/>"). split; reflexivity.
Defined.

(** * Properties of the remaining code *)

(** ** [split_by_alphabet] *)

Section SplitComplete.

Variable env : collaborators.

Lemma uniform_alphabet_all (c : Z) (t : pystr) (a : string) :
  uniform_alphabet env (c :: t) = Some a ->
  alphabet_of env c = Ok a /\ Forall (fun d => alphabet_of env d = Ok a) t.
Proof.
  cbn [uniform_alphabet]. destruct (alphabet_of env c) as [a0|]; [|discriminate].
  destruct (forallb _ t) eqn:Ef; [|discriminate].
  intros E. assert (a0 = a) by congruence. subst a0. split; [reflexivity|].
  rewrite forallb_forall in Ef. apply Forall_forall. intros d Hd.
  specialize (Ef d Hd). destruct (alphabet_of env d) as [b|]; [|discriminate].
  apply String.eqb_eq in Ef. congruence.
Qed.

(** Code points of the alphabet of the open run join it. *)
Lemma split_loop_same (t : pystr) (a : string) :
  Forall (fun d => alphabet_of env d = Ok a) t ->
  forall (rest : pystr) (strlist : list pystr) (target : pystr),
    split_loop env (t ++ rest) strlist target a
    = split_loop env rest strlist (target ++ t) a.
Proof.
  induction 1 as [|c t Hc Ht IH]; intros rest strlist target.
  - rewrite app_nil_r. reflexivity.
  - cbn [app split_loop]. rewrite Hc. cbn [rbind]. rewrite String.eqb_refl.
    rewrite IH, <- app_assoc. reflexivity.
Qed.

(** With a whole run in [target], the loop rebuilds the maximal runs
    that follow. *)
Lemma split_loop_complete (more : list pystr) :
  forall (st : pystr) (a : string),
    uniform_alphabet env st = Some a ->
    maximal_runs env (st :: more) = true ->
    split_loop env (List.concat more) [] st a = Ok (st :: more).
Proof.
  induction more as [|st' more' IH]; intros st a Hu Hm.
  - reflexivity.
  - cbn [maximal_runs] in Hm. rewrite Hu in Hm.
    destruct (uniform_alphabet env st') as [b|] eqn:Hu'; [|discriminate].
    apply Bool.andb_true_iff in Hm. destruct Hm as [Hab Hm].
    apply Bool.negb_true_iff in Hab.
    destruct st' as [|c' t']; [discriminate|].
    destruct (uniform_alphabet_all c' t' b Hu') as [Hc' Ht'].
    cbn [List.concat app split_loop]. rewrite Hc'. cbn [rbind].
    rewrite String.eqb_sym, Hab.
    pose proof (split_loop_acc env (t' ++ List.concat more') [st] [] [c'] b) as Hacc.
    cbn [app] in Hacc. rewrite Hacc. clear Hacc.
    rewrite (split_loop_same t' b Ht').
    change ([c'] ++ t') with (c' :: t').
    rewrite (IH (c' :: t') b Hu').
    + reflexivity.
    + cbn [maximal_runs]. rewrite Hu'. exact Hm.
Qed.

Lemma named_or_unnamed (str : pystr) :
  Forall (fun c => unicodedata_name env c <> None) str
  \/ exists c, In c str /\ unicodedata_name env c = None.
Proof.
  induction str as [|c r [IH|[d [Hd Hn]]]].
  - left. constructor.
  - destruct (unicodedata_name env c) as [n|] eqn:E.
    + left. constructor; [congruence|exact IH].
    + right. exists c. split; [left; reflexivity|exact E].
  - right. exists d. split; [right; exact Hd|exact Hn].
Qed.

End SplitComplete.

(** X1. [split_by_alphabet] returns [runs] exactly when [runs] is the
    decomposition of the input into maximal same-alphabet runs: not empty,
    concatenating to the input, every run non-empty in one alphabet,
    neighbours in different alphabets. *)
Theorem split_by_alphabet_characterized
  (env : collaborators) (str : pystr) (runs : list pystr) :
  split_by_alphabet env str = Ok runs
  <-> runs <> [] /\ List.concat runs = str /\ maximal_runs env runs = true.
Proof.
  split.
  - intros Hs. destruct (split_by_alphabet_runs env str runs Hs) as [Hc Hm].
    split; [|split; assumption].
    intros ->. cbn [List.concat] in Hc. subst str. discriminate Hs.
  - intros [Hne [Hc Hm]]. subst str.
    destruct runs as [|st more]; [congruence|].
    pose proof Hm as Hm'. cbn [maximal_runs] in Hm'.
    destruct (uniform_alphabet env st) as [a|] eqn:Hu; [|discriminate].
    destruct st as [|c0 t]; [discriminate|].
    destruct (uniform_alphabet_all env c0 t a Hu) as [H0 Ht].
    cbn [List.concat app split_by_alphabet]. rewrite H0. cbn [rbind].
    rewrite (split_loop_same env t a Ht).
    change ([c0] ++ t) with (c0 :: t).
    apply split_loop_complete; assumption.
Qed.

(** X2. [split_by_alphabet] raises [IndexError] exactly on the empty
    string, [ValueError] exactly when some code point has no Unicode name,
    nothing else, and succeeds exactly on non-empty strings whose code
    points all have a name. *)
Theorem split_by_alphabet_errors (env : collaborators) (str : pystr) :
  (split_by_alphabet env str = Raise IndexError <-> str = [])
  /\ (split_by_alphabet env str = Raise ValueError
      <-> exists c, In c str /\ unicodedata_name env c = None)
  /\ (forall e, split_by_alphabet env str = Raise e
                -> e = IndexError \/ e = ValueError)
  /\ ((exists runs, split_by_alphabet env str = Ok runs)
      <-> str <> [] /\ Forall (fun c => unicodedata_name env c <> None) str).
Proof.
  assert (Hcases : str = []
                   \/ (str <> [] /\ Forall (fun c => unicodedata_name env c <> None) str)
                   \/ (exists c, In c str /\ unicodedata_name env c = None)).
  { destruct str as [|c r]; [left; reflexivity|].
    destruct (named_or_unnamed env (c :: r)) as [H|H]; [|right; right; exact H].
    right. left. split; [discriminate|exact H]. }
  destruct Hcases as [-> | [[Hne Hn] | [c [Hin Hc]]]].
  - cbn [split_by_alphabet]. split; [|split; [|split]].
    + split; reflexivity.
    + split; [discriminate | intros [c [[] _]]].
    + intros e E. left. congruence.
    + split; [intros [r E]; discriminate | intros [H _]; congruence].
  - destruct (split_by_alphabet_named env str Hne Hn) as [runs Hs].
    rewrite Hs. split; [|split; [|split]].
    + split; [discriminate | intros ->; congruence].
    + split; [discriminate|]. intros [c [Hin Hc]]. rewrite Forall_forall in Hn.
      exfalso. exact (Hn c Hin Hc).
    + intros e E. discriminate E.
    + split; [intros _; split; assumption | intros _; exists runs; reflexivity].
  - rewrite (split_by_alphabet_unnamed env str c Hin Hc). split; [|split; [|split]].
    + split; [discriminate | intros ->; contradiction].
    + split; [intros _; exists c; split; assumption | reflexivity].
    + intros e E. right. congruence.
    + split; [intros [r E]; discriminate|]. intros [_ Hn].
      rewrite Forall_forall in Hn. exfalso. exact (Hn c Hin Hc).
Qed.

(** ** The strategies and the dispatcher *)

Lemma pystr_eqb_eq (a b : pystr) : pystr_eqb a b = true <-> a = b.
Proof.
  unfold pystr_eqb. destruct (list_eq_dec Z.eq_dec a b); split; congruence.
Qed.

Section MoreStrategies.

Variable env : collaborators.

Lemma cantonese_loop_pieces (runs : list pystr) :
  forall (latin : pystr) (w : world),
    Forall (fun st => exists a, uniform_alphabet env st = Some a) runs ->
    (forall st, In st runs -> alphabet_of_first env st = Ok "CJK"%string ->
                exists out, jyutping env st = Ok out) ->
    exists pieces,
      Forall2 (cantonese_piece env) runs pieces
      /\ cantonese_loop env runs latin w = (Ok (PyStr (latin ++ List.concat pieces)), w).
Proof.
  induction runs as [|st more IH]; intros latin w Hu Heng.
  - exists []. split; [constructor|]. cbn [cantonese_loop List.concat ret].
    rewrite app_nil_r. reflexivity.
  - inversion Hu as [|? ? [a Ha] Hmore]; subst.
    apply uniform_alphabet_first in Ha.
    cbn [cantonese_loop]. unfold bind, lift. rewrite Ha.
    destruct (String.eqb a "CJK") eqn:Et.
    + apply String.eqb_eq in Et. subst a.
      destruct (Heng st (or_introl eq_refl) Ha) as [out Hout]. rewrite Hout.
      destruct (IH (latin ++ out) w Hmore) as [pieces [Hp Hl]].
      { intros st' Hin. apply Heng. right. exact Hin. }
      exists (out :: pieces). split.
      * constructor; [|exact Hp]. unfold cantonese_piece. rewrite Ha.
        cbn [String.eqb Ascii.eqb Bool.eqb andb]. exact Hout.
      * rewrite Hl. cbn [List.concat]. rewrite <- app_assoc. reflexivity.
    + destruct (IH (latin ++ st) w Hmore) as [pieces [Hp Hl]].
      { intros st' Hin. apply Heng. right. exact Hin. }
      exists (st :: pieces). split.
      * constructor; [|exact Hp]. unfold cantonese_piece. rewrite Ha, Et. reflexivity.
      * rewrite Hl. cbn [List.concat]. rewrite <- app_assoc. reflexivity.
Qed.

Lemma cantonese_pieces_unique (runs : list pystr) :
  forall p1 p2,
    Forall2 (cantonese_piece env) runs p1 ->
    Forall2 (cantonese_piece env) runs p2 -> p1 = p2.
Proof.
  induction runs as [|st more IH]; intros p1 p2 H1 H2;
    inversion H1 as [|? a1 ? r1 Ha1 Hr1]; inversion H2 as [|? a2 ? r2 Ha2 Hr2]; subst.
  - reflexivity.
  - f_equal; [|apply IH; assumption].
    unfold cantonese_piece in Ha1, Ha2.
    destruct (alphabet_of_first env st) as [a|]; [|contradiction].
    destruct (String.eqb a "CJK"); congruence.
Qed.

(** Runs outside the alphabet of a strategy go through its loop as they
    are, and the engine is not asked. *)
Lemma thai_loop_passthrough (runs : list pystr) :
  forall (latin : pystr) (w : world),
    Forall (fun st => exists a, alphabet_of_first env st = Ok a
                                /\ a <> "THAI"%string) runs ->
    thai_loop env runs latin w = (Ok (PyStr (latin ++ List.concat runs)), w).
Proof.
  induction runs as [|st more IH]; intros latin w H.
  - cbn [thai_loop List.concat ret]. rewrite app_nil_r. reflexivity.
  - inversion H as [|? ? [a [Ha Hn]] Hmore]; subst.
    cbn [thai_loop]. unfold bind, lift. rewrite Ha.
    destruct (String.eqb_spec a "THAI"); [contradiction|].
    rewrite (IH _ _ Hmore). cbn [List.concat]. rewrite <- app_assoc. reflexivity.
Qed.

Lemma cantonese_loop_passthrough (runs : list pystr) :
  forall (latin : pystr) (w : world),
    Forall (fun st => exists a, alphabet_of_first env st = Ok a
                                /\ a <> "CJK"%string) runs ->
    cantonese_loop env runs latin w = (Ok (PyStr (latin ++ List.concat runs)), w).
Proof.
  induction runs as [|st more IH]; intros latin w H.
  - cbn [cantonese_loop List.concat ret]. rewrite app_nil_r. reflexivity.
  - inversion H as [|? ? [a [Ha Hn]] Hmore]; subst.
    cbn [cantonese_loop]. unfold bind, lift. rewrite Ha.
    destruct (String.eqb_spec a "CJK"); [contradiction|].
    rewrite (IH _ _ Hmore). cbn [List.concat]. rewrite <- app_assoc. reflexivity.
Qed.

(** The first code point of every run is a code point of the input. *)
Lemma runs_first_alphabet (str : pystr) (runs : list pystr) (bad : string) :
  split_by_alphabet env str = Ok runs ->
  (forall c, In c str -> alphabet_of env c <> Ok bad) ->
  Forall (fun st => exists a, alphabet_of_first env st = Ok a /\ a <> bad) runs.
Proof.
  intros Hs Hno.
  destruct (split_by_alphabet_runs env str runs Hs) as [Hc Hm].
  pose proof (maximal_runs_uniform env runs Hm) as Hu.
  apply Forall_forall. intros st Hin.
  rewrite Forall_forall in Hu. destruct (Hu st Hin) as [a Ha].
  exists a. split; [apply uniform_alphabet_first; exact Ha|].
  destruct st as [|c t]; [discriminate|].
  destruct (uniform_alphabet_all env c t a Ha) as [Hca _].
  intros ->. apply (Hno c); [|exact Hca].
  subst str. apply in_concat. exists (c :: t). split; [exact Hin|left; reflexivity].
Qed.

(** What the loops do to the world: nothing, unless they return [None]
    after one line on standard error. *)
Lemma thai_loop_world (runs : list pystr) :
  forall (latin : pystr) (w : world),
    match thai_loop env runs latin w with
    | (Ok (PyStr _), w') => w' = w
    | (Ok PyNone, w') => exists st, In st runs /\ w' = logged (TltkError st) w
    | (Ok _, _) => False
    | (Raise _, w') => w' = w
    end.
Proof.
  induction runs as [|st more IH]; intros latin w; cbn [thai_loop].
  - reflexivity.
  - unfold bind, lift. destruct (alphabet_of_first env st) as [a|e]; [|reflexivity].
    destruct (String.eqb a "THAI").
    + destruct (th2roman env st) as [out|e].
      * specialize (IH (latin ++ py_rstrip (py_rstrip_chars (py "<s/>") out)) w).
        destruct (thai_loop env more _ w) as [[[| |text|]|e] w']; try assumption.
        destruct IH as [st' [Hin Hw]]. exists st'. split; [right; exact Hin|exact Hw].
      * exists st. split; [left; reflexivity|reflexivity].
    + specialize (IH (latin ++ st) w).
      destruct (thai_loop env more _ w) as [[[| |text|]|e] w']; try assumption.
      destruct IH as [st' [Hin Hw]]. exists st'. split; [right; exact Hin|exact Hw].
Qed.

Lemma cantonese_loop_world (runs : list pystr) :
  forall (latin : pystr) (w : world),
    match cantonese_loop env runs latin w with
    | (Ok (PyStr _), w') => w' = w
    | (Ok PyNone, w') => exists st, In st runs /\ w' = logged (JyutpingError st) w
    | (Ok _, _) => False
    | (Raise _, w') => w' = w
    end.
Proof.
  induction runs as [|st more IH]; intros latin w; cbn [cantonese_loop].
  - reflexivity.
  - unfold bind, lift. destruct (alphabet_of_first env st) as [a|e]; [|reflexivity].
    destruct (String.eqb a "CJK").
    + destruct (jyutping env st) as [out|e].
      * specialize (IH (latin ++ out) w).
        destruct (cantonese_loop env more _ w) as [[[| |text|]|e] w']; try assumption.
        destruct IH as [st' [Hin Hw]]. exists st'. split; [right; exact Hin|exact Hw].
      * exists st. split; [left; reflexivity|reflexivity].
    + specialize (IH (latin ++ st) w).
      destruct (cantonese_loop env more _ w) as [[[| |text|]|e] w']; try assumption.
      destruct IH as [st' [Hin Hw]]. exists st'. split; [right; exact Hin|exact Hw].
Qed.

(** The loop of the Japanese strategy without its accumulator. *)
Lemma hepburn_loop_concat (kanji : list pystr) :
  forall out,
    hepburn_loop env kanji out
    = out ++ List.concat (map (fun h => py_capitalize env h ++ py " ")
                               (filter nonempty (map py_strip kanji))).
Proof.
  induction kanji as [|k more IH]; intros out; cbn [hepburn_loop map filter].
  - cbn [List.concat]. rewrite app_nil_r. reflexivity.
  - destruct (py_strip k) as [|c h] eqn:E.
    + cbn [List.length Z.of_nat Z.gtb Z.compare nonempty]. apply IH.
    + replace (Z.of_nat (List.length (c :: h)) >? 0) with true
        by (symmetry; rewrite Z.gtb_ltb; apply Z.ltb_lt; cbn [List.length]; lia).
      cbn [nonempty map List.concat]. rewrite IH, <- !app_assoc. reflexivity.
Qed.

End MoreStrategies.

(** X3. The Cantonese strategy on a non-empty input whose code points all
    have a name, with an engine that does not raise on the CJK runs: the
    input is cut into maximal same-alphabet runs, every run whose first
    code point has the name prefix CJK is replaced by the engine's output
    as it is, every other run is kept, and the pieces are concatenated in
    order. *)
Theorem cantonese_transcript_runs (env : collaborators) (inpstr : pystr) :
  inpstr <> [] ->
  Forall (fun c => unicodedata_name env c <> None) inpstr ->
  (forall runs,
      split_by_alphabet env inpstr = Ok runs ->
      forall st, In st runs ->
      alphabet_of_first env st = Ok "CJK"%string ->
      exists out, jyutping env st = Ok out) ->
  exists runs pieces,
    split_by_alphabet env inpstr = Ok runs
    /\ List.concat runs = inpstr
    /\ maximal_runs env runs = true
    /\ Forall2 (cantonese_piece env) runs pieces
    /\ forall w, cantonese_transcript env inpstr w
                 = (Ok (PyStr (List.concat pieces)), w).
Proof.
  intros Hne Hnamed Heng.
  destruct (split_by_alphabet_named env inpstr Hne Hnamed) as [runs Hs].
  destruct (split_by_alphabet_runs env inpstr runs Hs) as [Hc Hm].
  destruct (cantonese_loop_pieces env runs [] world0 (maximal_runs_uniform env runs Hm)
              (Heng runs Hs)) as [pieces [Hp _]].
  exists runs, pieces. split; [exact Hs|]. split; [exact Hc|]. split; [exact Hm|].
  split; [exact Hp|].
  intros w. unfold cantonese_transcript, bind, lift. rewrite Hs.
  destruct (cantonese_loop_pieces env runs [] w (maximal_runs_uniform env runs Hm)
              (Heng runs Hs)) as [pieces' [Hp' Hl]].
  rewrite Hl. cbn [app].
  rewrite (cantonese_pieces_unique env runs pieces' pieces Hp' Hp). reflexivity.
Qed.

Lemma cantonese_transcript_runs_witness :
  cantonese_transcript sample_env [0x9999; 0x6E2F; 0x20; 0x61] world0
  = (Ok (PyStr (py "hoeng1 gong2 a")), world0)
  /\ exists runs pieces,
       split_by_alphabet sample_env [0x9999; 0x6E2F; 0x20; 0x61] = Ok runs
       /\ List.concat runs = [0x9999; 0x6E2F; 0x20; 0x61]
       /\ maximal_runs sample_env runs = true
       /\ Forall2 (cantonese_piece sample_env) runs pieces
       /\ forall w, cantonese_transcript sample_env [0x9999; 0x6E2F; 0x20; 0x61] w
                    = (Ok (PyStr (List.concat pieces)), w).
Proof.
  split; [reflexivity|].
  apply (cantonese_transcript_runs sample_env [0x9999; 0x6E2F; 0x20; 0x61]).
  - discriminate.
  - repeat constructor; discriminate.
  - intros runs _ st _ _. exists (py "hoeng1 gong2"). reflexivity.
Defined.

(** X4. A non-empty text whose code points all have a name, none of them
    with the name prefix THAI, comes out of the Thai strategy unchanged,
    whatever the Thai engine would do. *)
Theorem thai_transcript_without_thai
  (env : collaborators) (inpstr : pystr) (w : world) :
  inpstr <> [] ->
  Forall (fun c => unicodedata_name env c <> None) inpstr ->
  (forall c, In c inpstr -> alphabet_of env c <> Ok "THAI"%string) ->
  thai_transcript env inpstr w = (Ok (PyStr inpstr), w).
Proof.
  intros Hne Hnamed Hno.
  destruct (split_by_alphabet_named env inpstr Hne Hnamed) as [runs Hs].
  destruct (split_by_alphabet_runs env inpstr runs Hs) as [Hc _].
  unfold thai_transcript, bind, lift. rewrite Hs.
  rewrite (thai_loop_passthrough env runs [] w
             (runs_first_alphabet env inpstr runs "THAI" Hs Hno)).
  cbn [app]. rewrite Hc. reflexivity.
Qed.

Lemma thai_transcript_without_thai_witness :
  th2roman failing_env (py "ab 12") = Raise (EngineError 1)
  /\ thai_transcript failing_env (py "ab 12") world0
     = (Ok (PyStr (py "ab 12")), world0).
Proof.
  split; [reflexivity|].
  apply (thai_transcript_without_thai failing_env (py "ab 12") world0).
  - discriminate.
  - repeat constructor; discriminate.
  - intros c [<- | [<- | [<- | [<- | [<- | []]]]]]; discriminate.
Defined.

(** X5. A non-empty text whose code points all have a name, none of them
    with the name prefix CJK, comes out of the Cantonese strategy
    unchanged, whatever the Cantonese engine would do. *)
Theorem cantonese_transcript_without_cjk
  (env : collaborators) (inpstr : pystr) (w : world) :
  inpstr <> [] ->
  Forall (fun c => unicodedata_name env c <> None) inpstr ->
  (forall c, In c inpstr -> alphabet_of env c <> Ok "CJK"%string) ->
  cantonese_transcript env inpstr w = (Ok (PyStr inpstr), w).
Proof.
  intros Hne Hnamed Hno.
  destruct (split_by_alphabet_named env inpstr Hne Hnamed) as [runs Hs].
  destruct (split_by_alphabet_runs env inpstr runs Hs) as [Hc _].
  unfold cantonese_transcript, bind, lift. rewrite Hs.
  rewrite (cantonese_loop_passthrough env runs [] w
             (runs_first_alphabet env inpstr runs "CJK" Hs Hno)).
  cbn [app]. rewrite Hc. reflexivity.
Qed.

Lemma cantonese_transcript_without_cjk_witness :
  jyutping failing_env [0x0E01; 0x61] = Raise (EngineError 2)
  /\ cantonese_transcript failing_env [0x0E01; 0x61] world0
     = (Ok (PyStr [0x0E01; 0x61]), world0).
Proof.
  split; [reflexivity|].
  apply (cantonese_transcript_without_cjk failing_env [0x0E01; 0x61] world0).
  - discriminate.
  - repeat constructor; discriminate.
  - intros c [<- | [<- | []]]; discriminate.
Defined.

Lemma transcript_world
  (env : collaborators) (country unistr : pystr) (w : world) :
  match transcript env country unistr w with
  | (Ok (PyStr _), w') => w' = w
  | (Ok PyNone, w') =>
      (country = py "th" /\ exists st, w' = logged (TltkError st) w)
      \/ ((country = py "mo" \/ country = py "hk")
          /\ exists st, w' = logged (JyutpingError st) w)
  | (Ok _, _) => False
  | (Raise _, w') => w' = w
  end.
Proof.
  unfold transcript.
  destruct (pystr_eqb country (py "jp")) eqn:Ejp.
  { unfold bind, lift. destruct (kakasi_convert env unistr); reflexivity. }
  destruct (pystr_eqb country (py "th")) eqn:Eth.
  { apply pystr_eqb_eq in Eth. unfold thai_transcript, bind, lift.
    destruct (split_by_alphabet env unistr) as [runs|e]; [|reflexivity].
    pose proof (thai_loop_world env runs [] w) as H.
    destruct (thai_loop env runs [] w) as [[[| |text|]|e] w']; try assumption.
    destruct H as [st [_ Hw]]. left. split; [exact Eth|]. exists st. exact Hw. }
  destruct (pystr_eqb country (py "mo") || pystr_eqb country (py "hk")) eqn:Ec.
  { apply Bool.orb_true_iff in Ec. rewrite !pystr_eqb_eq in Ec.
    unfold cantonese_transcript, bind, lift.
    destruct (split_by_alphabet env unistr) as [runs|e]; [|reflexivity].
    pose proof (cantonese_loop_world env runs [] w) as H.
    destruct (cantonese_loop env runs [] w) as [[[| |text|]|e] w']; try assumption.
    destruct H as [st [_ Hw]]. right. split; [exact Ec|]. exists st. exact Hw. }
  unfold bind, lift. destruct (icutr env unistr); reflexivity.
Qed.

(** X6. The dispatcher returns text or [None], never anything else.  It
    leaves the world as it is, except when it returns [None]: that happens
    only for country [th], after one [tltk] line on standard error, or for
    country [mo] or [hk], after one [pinyin_jyutping_sentence] line.  An
    exception out of the dispatcher leaves no trace. *)
Theorem transcript_effects
  (env : collaborators) (country unistr : pystr) (w : world) :
  match transcript env country unistr w with
  | (Ok (PyStr _), w') => w' = w
  | (Ok PyNone, w') =>
      (country = py "th" /\ exists st, w' = logged (TltkError st) w)
      \/ ((country = py "mo" \/ country = py "hk")
          /\ exists st, w' = logged (JyutpingError st) w)
  | (Ok _, _) => False
  | (Raise _, w') => w' = w
  end.
Proof. exact (transcript_world env country unistr w). Qed.

(** X7. The Japanese strategy (country [jp]): when [kakasi.convert] gives
    the fragments [kanji], the reply is the text made of the fragments that
    are not blank, each trimmed, capitalized and followed by one space, the
    whole trimmed; nothing is logged. *)
Theorem transcript_jp
  (env : collaborators) (unistr : pystr) (kanji : list pystr) (w : world) :
  kakasi_convert env unistr = Ok kanji ->
  transcript env (py "jp") unistr w = (Ok (PyStr (hepburn_text env kanji)), w).
Proof.
  intros Hk. unfold transcript.
  change (pystr_eqb (py "jp") (py "jp")) with true. cbv beta iota.
  unfold bind, lift. rewrite Hk. unfold ret, hepburn_text.
  rewrite hepburn_loop_concat. reflexivity.
Qed.

Lemma transcript_jp_witness :
  transcript sample_env (py "jp") [0x6771; 0x4EAC] world0
  = (Ok (PyStr (py "Toukyou")), world0)
  /\ transcript sample_env (py "jp") [0x6771; 0x4EAC] world0
     = (Ok (PyStr (hepburn_text sample_env [py "toukyou"])), world0).
Proof.
  split; [reflexivity|].
  apply (transcript_jp sample_env [0x6771; 0x4EAC] [py "toukyou"] world0).
  reflexivity.
Defined.

(** X8. A text in the THAI alphabet alone, for which the engine returns
    some text, a space and the marker [<s/>]: the Thai strategy returns
    that text without its trailing whitespace. *)
Theorem thai_transcript_spaced_marker
  (env : collaborators) (inpstr body : pystr) (w : world) :
  uniform_alphabet env inpstr = Some "THAI"%string ->
  th2roman env inpstr = Ok (body ++ py " <s/>") ->
  thai_transcript env inpstr w = (Ok (PyStr (py_rstrip body)), w).
Proof.
  intros Hu Ho. destruct inpstr as [|c0 t]; [discriminate|].
  destruct (uniform_alphabet_all env c0 t _ Hu) as [H0 Ht].
  unfold thai_transcript, bind, lift. cbn [split_by_alphabet]. rewrite H0.
  cbn [rbind].
  rewrite <- (app_nil_r t) at 1. rewrite (split_loop_same env t _ Ht).
  cbn [split_loop app thai_loop]. unfold bind, lift.
  cbn [alphabet_of_first]. rewrite H0.
  cbn [String.eqb Ascii.eqb Bool.eqb andb]. rewrite Ho. cbn [thai_loop ret app].
  change (py_rstrip (py_rstrip_chars (py "<s/>") (body ++ py " <s/>")))
    with (strip_marker_chars (body ++ py " <s/>")).
  rewrite strip_marker_chars_spaced. reflexivity.
Qed.

Lemma thai_transcript_spaced_marker_witness :
  thai_transcript sample_env [0x0E01; 0x0E23; 0x0E38; 0x0E07] world0
  = (Ok (PyStr (py "krungthep")), world0).
Proof.
  apply (thai_transcript_spaced_marker sample_env [0x0E01; 0x0E23; 0x0E38; 0x0E07]
           (py "krungthep") world0); reflexivity.
Defined.

(** ** Answering a request *)

Section MoreRequests.

Variable env : collaborators.

Lemma pack_zero : struct_pack_I (native_order env) 0 = Ok empty_frame.
Proof. unfold struct_pack_I. destruct (native_order env); reflexivity. Qed.

Lemma transcript_observables (cc name : pystr) (w : world) :
  writer (snd (transcript env cc name w)) = writer w
  /\ resolver_calls (snd (transcript env cc name w)) = resolver_calls w
  /\ backend_queries (snd (transcript env cc name w)) = backend_queries w.
Proof.
  pose proof (transcript_world env cc name w) as H.
  destruct (transcript env cc name w) as [[[| |text|]|e] w']; cbn [snd];
    try contradiction; try (subst w'; repeat split; reflexivity).
  destruct H as [[_ [st ->]] | [_ [st ->]]]; repeat split; reflexivity.
Qed.

Lemma answer_request_frame (id cc name : pystr) (w : world) :
  exists payload prefix w1,
    answer_request env id cc name w = (Ok tt, wrote (prefix ++ payload) w1)
    /\ writer w1 = writer w
    /\ resolver_calls w1 = resolver_calls w
    /\ backend_queries w1 = backend_queries w
    /\ struct_pack_I (native_order env) (Z.of_nat (List.length payload)) = Ok prefix
    /\ (payload = []
        \/ exists text w0,
             name <> []
             /\ transcript env cc name w = (Ok (PyStr text), w0)
             /\ utf8_encode text = Some payload).
Proof.
  unfold answer_request, try_except, bind.
  destruct (pystr_eqb name []) eqn:En; cbn [negb].
  { unfold ret. rewrite send_reply_empty.
    exists [], empty_frame, w. repeat split; try reflexivity.
    - apply pack_zero.
    - left. reflexivity. }
  assert (Hne : name <> []).
  { intros ->. unfold pystr_eqb in En.
    destruct (list_eq_dec Z.eq_dec (@nil Z) []); congruence. }
  pose proof (transcript_observables cc name w) as Hobs.
  pose proof (transcript_world env cc name w) as Hw.
  destruct (transcript env cc name w) as [[v|e] w0] eqn:Et; cbn [snd] in Hobs;
    destruct Hobs as [Hwr [Hrc Hbq]].
  - destruct v as [| z |text| items]; try contradiction.
    + unfold stderr_write. rewrite send_reply_empty.
      exists [], empty_frame, (logged (NonStringReply id cc name PyNone) w0).
      repeat split; try assumption; [apply pack_zero | left; reflexivity].
    + unfold send_reply at 1.
      destruct (utf8_encode text) as [data|] eqn:Ee.
      * destruct (struct_pack_I (native_order env) (Z.of_nat (List.length data)))
          as [prefix|e] eqn:Ep.
        -- exists data, prefix, w0. unfold writer_write.
           repeat split; try assumption.
           right. exists text, w0. repeat split; assumption.
        -- unfold lift, stderr_write. rewrite send_reply_empty.
           exists [], empty_frame, (logged (RequestError id e) w0).
           repeat split; try assumption; [apply pack_zero | left; reflexivity].
      * unfold lift, stderr_write. rewrite send_reply_empty.
        exists [], empty_frame, (logged (RequestError id UnicodeEncodeError) w0).
        repeat split; try assumption; [apply pack_zero | left; reflexivity].
  - unfold stderr_write. rewrite send_reply_empty.
    exists [], empty_frame, (logged (RequestError id e) w0).
    repeat split; try assumption; [apply pack_zero | left; reflexivity].
Qed.

Lemma unpack4_shape (qs : list pystr) (id lon lat name : pystr) :
  unpack4 qs = Ok (id, lon, lat, name) -> qs = [id; lon; lat; name].
Proof.
  destruct qs as [|a [|b [|c [|d [|e l]]]]]; cbn [unpack4]; try discriminate.
  intros E. congruence.
Qed.

(** A payload of four fields goes through the resolution of the country. *)
Lemma parse_request_four (data id lon lat name : pystr) (w : world) :
  py_split 0x2F 3 data = [id; lon; lat; name] ->
  parse_request env data w
  = match coordinate_country env lon lat name w with
    | (Ok cc, w') => (Ok (id, cc, name), w')
    | (Raise e, w') => (Raise e, w')
    end.
Proof.
  intros Hs. unfold parse_request. rewrite Hs.
  cbn [List.length Z.of_nat Pos.of_succ_nat Pos.succ Z.eqb Pos.eqb unpack4].
  cbv beta iota delta [bind lift ret].
  destruct (coordinate_country env lon lat name w) as [[cc|e] w']; reflexivity.
Qed.

(** What parsing can do to the world: nothing, or one call to the
    resolver with the coordinates of a four-field payload. *)
Lemma parse_request_world (data : pystr) (w : world) :
  writer (snd (parse_request env data w)) = writer w
  /\ stderr (snd (parse_request env data w)) = stderr w
  /\ (snd (parse_request env data w) = w
      \/ exists id lon lat name,
           py_split 0x2F 3 data = [id; lon; lat; name]
           /\ co2c_ready env = true
           /\ contains_cjk name = true
           /\ resolver_calls (snd (parse_request env data w))
              = resolver_calls w ++ [(lon, lat)]).
Proof.
  destruct (unpack4 (py_split 0x2F 3 data)) as [[[[id lon] lat] name]|e] eqn:Eu.
  2:{ assert (E : snd (parse_request env data w) = w).
      { unfold parse_request.
        destruct (Z.of_nat (List.length (py_split 0x2F 3 data)) =? 3);
          [reflexivity|].
        unfold bind, lift. rewrite Eu. reflexivity. }
      rewrite E. repeat split. left. reflexivity. }
  apply unpack4_shape in Eu.
  rewrite (parse_request_four data id lon lat name w Eu).
  unfold coordinate_country.
  destruct (co2c_ready env) eqn:Er.
  2:{ cbn [ret snd]. repeat split. left. reflexivity. }
  destruct (contains_cjk name) eqn:Ec.
  2:{ destruct (contains_thai name); cbn [ret snd]; repeat split; left; reflexivity. }
  assert (Hg : writer (snd (Coord2Country_getCountry env lon lat w)) = writer w
               /\ stderr (snd (Coord2Country_getCountry env lon lat w)) = stderr w
               /\ resolver_calls (snd (Coord2Country_getCountry env lon lat w))
                  = resolver_calls w ++ [(lon, lat)]).
  { unfold Coord2Country_getCountry, bind, note_resolver_call.
    destruct (pystr_eqb lat [] && pystr_eqb lon []); [repeat split|].
    unfold note_backend_query, lift.
    destruct (backend_getCountry env lon lat); repeat split. }
  destruct (Coord2Country_getCountry env lon lat w) as [[cc|e] w'];
    cbn [snd] in *; destruct Hg as [H1 [H2 H3]];
    (split; [exact H1|]; split; [exact H2|]; right;
     exists id, lon, lat, name; repeat split; assumption).
Qed.

End MoreRequests.

(** X9. Once a request is parsed, answering it never raises and writes
    exactly one reply frame, whatever the engines do: the frame carries
    either the UTF-8 encoding of the text the dispatcher returned or the
    empty payload.  Nothing else is written to the peer and the resolver is
    not called. *)
Theorem answer_request_one_frame
  (env : collaborators) (id cc name : pystr) (w : world) :
  exists payload prefix w1,
    answer_request env id cc name w = (Ok tt, wrote (prefix ++ payload) w1)
    /\ writer w1 = writer w
    /\ resolver_calls w1 = resolver_calls w
    /\ backend_queries w1 = backend_queries w
    /\ struct_pack_I (native_order env) (Z.of_nat (List.length payload)) = Ok prefix
    /\ (payload = []
        \/ exists text w0,
             name <> []
             /\ transcript env cc name w = (Ok (PyStr text), w0)
             /\ utf8_encode text = Some payload).
Proof. exact (answer_request_frame env id cc name w). Qed.

(** X10. A coordinate request gets the empty country code, without any
    call to the resolver, when the resolver is not ready, and also when the
    name holds no code point of the Thai block and none of the CJK block. *)
Theorem coordinate_request_without_lookup
  (env : collaborators) (data id lon lat name : pystr) (w : world) :
  py_split 0x2F 3 data = [id; lon; lat; name] ->
  co2c_ready env = false
  \/ (forall c, In c name -> thai_block c = false /\ cjk_block c = false) ->
  parse_request env data w = (Ok (id, [], name), w).
Proof.
  intros Hs H. rewrite (parse_request_four env data id lon lat name w Hs).
  unfold coordinate_country. destruct H as [-> | H]; [reflexivity|].
  replace (contains_cjk name) with false.
  2:{ symmetry. apply existsb_none_Z. intros d Hd. destruct (H d Hd) as [_ Hc].
      unfold cjk_block in Hc. apply Bool.andb_false_iff in Hc.
      apply Bool.andb_false_iff. rewrite Z.gtb_ltb, !Z.ltb_ge.
      rewrite !Z.leb_gt in Hc. lia. }
  replace (contains_thai name) with false.
  2:{ symmetry. apply existsb_none_Z. intros d Hd. destruct (H d Hd) as [Ht _].
      unfold thai_block in Ht. apply Bool.andb_false_iff in Ht.
      apply Bool.andb_false_iff. rewrite Z.gtb_ltb, !Z.ltb_ge.
      rewrite !Z.leb_gt in Ht. lia. }
  destruct (co2c_ready env); reflexivity.
Qed.

Lemma coordinate_request_without_lookup_witness :
  parse_request sample_env (py "3/13.4/52.5/Berlin") world0
  = (Ok (py "3", [], py "Berlin"), world0).
Proof.
  apply (coordinate_request_without_lookup sample_env (py "3/13.4/52.5/Berlin")
           (py "3") (py "13.4") (py "52.5") (py "Berlin") world0);
    [reflexivity|].
  right. intros c [<- | [<- | [<- | [<- | [<- | [<- | []]]]]]]; split; reflexivity.
Defined.

(** ** The resolver in a request *)

Lemma getCountry_backend
  (env : collaborators) (lon lat : pystr) (w : world) :
  ~ (lat = [] /\ lon = []) ->
  Coord2Country_getCountry env lon lat w
  = (backend_getCountry env lon lat, backend_queried lon lat (resolver_called lon lat w)).
Proof.
  intros Hne. unfold Coord2Country_getCountry, bind, note_resolver_call.
  replace (pystr_eqb lat [] && pystr_eqb lon []) with false.
  - unfold note_backend_query, lift. reflexivity.
  - symmetry. apply Bool.not_true_is_false. intros H.
    apply Bool.andb_true_iff in H. rewrite !pystr_eqb_eq in H. exact (Hne H).
Qed.

(** X11. A coordinate request with a ready resolver, a name holding a
    code point strictly between U+4E00 and U+9FFF (whatever else it holds,
    Thai included) and coordinates that are not both empty: the resolver is
    called once, the grid is queried once with these coordinates, and the
    answer is the country code of the request. *)
Theorem cjk_request_resolved
  (env : collaborators) (data id lon lat name country : pystr) (c : Z) (w : world) :
  py_split 0x2F 3 data = [id; lon; lat; name] ->
  co2c_ready env = true ->
  In c name -> 0x4E00 < c < 0x9FFF ->
  ~ (lat = [] /\ lon = []) ->
  backend_getCountry env lon lat = Ok country ->
  parse_request env data w
  = (Ok (id, country, name), backend_queried lon lat (resolver_called lon lat w)).
Proof.
  intros Hs Hr Hin Hc Hne Hb.
  rewrite (parse_request_four env data id lon lat name w Hs).
  rewrite (coordinate_country_cjk env lon lat name c Hr Hin Hc).
  rewrite getCountry_backend by exact Hne. rewrite Hb. reflexivity.
Qed.

Lemma cjk_request_resolved_witness :
  contains_thai [0x0E01; 0x4EAC] = true
  /\ parse_request sample_env (py "1/139.6/35.6/" ++ [0x0E01; 0x4EAC]) world0
     = (Ok (py "1", py "jp", [0x0E01; 0x4EAC]),
        backend_queried (py "139.6") (py "35.6")
          (resolver_called (py "139.6") (py "35.6") world0)).
Proof.
  split; [reflexivity|].
  apply (cjk_request_resolved sample_env (py "1/139.6/35.6/" ++ [0x0E01; 0x4EAC])
           (py "1") (py "139.6") (py "35.6") [0x0E01; 0x4EAC] (py "jp") 0x4EAC world0);
    [reflexivity | reflexivity | right; left; reflexivity | lia | | reflexivity].
  intros [H _]. discriminate H.
Defined.

(** X12. A coordinate request whose two coordinate fields are both empty,
    with a ready resolver and a name holding a code point strictly between
    U+4E00 and U+9FFF: the resolver is called but the grid is not queried,
    and the country code is empty. *)
Theorem empty_coordinates_not_queried
  (env : collaborators) (data id name : pystr) (c : Z) (w : world) :
  py_split 0x2F 3 data = [id; []; []; name] ->
  co2c_ready env = true ->
  In c name -> 0x4E00 < c < 0x9FFF ->
  parse_request env data w = (Ok (id, [], name), resolver_called [] [] w).
Proof.
  intros Hs Hr Hin Hc.
  rewrite (parse_request_four env data id [] [] name w Hs).
  rewrite (coordinate_country_cjk env [] [] name c Hr Hin Hc).
  reflexivity.
Qed.

Lemma empty_coordinates_not_queried_witness :
  parse_request sample_env (py "1///" ++ [0x6771; 0x4EAC]) world0
  = (Ok (py "1", [], [0x6771; 0x4EAC]), resolver_called [] [] world0)
  /\ backend_queries (resolver_called [] [] world0) = [].
Proof.
  split; [|reflexivity].
  apply (empty_coordinates_not_queried sample_env (py "1///" ++ [0x6771; 0x4EAC])
           (py "1") [0x6771; 0x4EAC] 0x4EAC world0);
    [reflexivity | reflexivity | right; left; reflexivity | lia].
Defined.



(** X14. While a request is handled the resolver is called at most once,
    and only for a four-field payload with a ready resolver and a name that
    [contains_cjk] accepts; the call carries the two coordinate fields. *)
Theorem resolver_called_at_most_once
  (env : collaborators) (data : pystr) (w : world) :
  resolver_calls (snd (handle_request env data w)) = resolver_calls w
  \/ exists id lon lat name,
       py_split 0x2F 3 data = [id; lon; lat; name]
       /\ co2c_ready env = true
       /\ contains_cjk name = true
       /\ resolver_calls (snd (handle_request env data w))
          = resolver_calls w ++ [(lon, lat)].
Proof.
  pose proof (parse_request_world env data w) as [_ [_ Hp]].
  assert (Hh : resolver_calls (snd (handle_request env data w))
               = resolver_calls (snd (parse_request env data w))).
  { unfold handle_request, bind.
    destruct (parse_request env data w) as [[[[id cc] name]|e] w1]; cbn [snd];
      [|reflexivity].
    apply geo_untouched_answer. }
  rewrite Hh. destruct Hp as [-> | [id [lon [lat [name [H1 [H2 [H3 H4]]]]]]]].
  - left. reflexivity.
  - right. exists id, lon, lat, name. repeat split; assumption.
Qed.

(** ** Reading from the peer *)

Section MoreFraming.

Variable env : collaborators.

Lemma frame_in_prefix (n : Z) :
  0 <= n < 4294967296 ->
  List.length (in_order (native_order env) (le_bytes n)) = 4%nat
  /\ struct_unpack_I (native_order env) (in_order (native_order env) (le_bytes n))
     = Ok (PyIntTuple [n]).
Proof.
  intros H. split.
  - rewrite in_order_length. reflexivity.
  - unfold struct_unpack_I. rewrite in_order_involutive, le_value_le_bytes by exact H.
    reflexivity.
Qed.

(** [read_request] on a frame, whatever its payload. *)
Lemma read_request_frame_in (payload rest : pybytes) :
  Z.of_nat (List.length payload) < 4294967296 ->
  read_request env (frame_in (native_order env) payload ++ rest)
  = match utf8_decode payload with
    | Some s => (Ok (Some s), rest)
    | None => (Raise UnicodeDecodeError, rest)
    end.
Proof.
  intros Hlen.
  destruct (frame_in_prefix (Z.of_nat (List.length payload))) as [Hl Hu]; [lia|].
  unfold frame_in, read_request. rewrite <- app_assoc.
  replace 4 with (Z.of_nat (List.length (in_order (native_order env)
                     (le_bytes (Z.of_nat (List.length payload))))))
    by (rewrite Hl; reflexivity).
  rewrite readexactly_app, Hl. cbn [Nat.eqb Z.of_nat Z.eqb].
  rewrite Hu. cbn [py_eqb py_index0].
  rewrite readexactly_app. destruct (utf8_decode payload); reflexivity.
Qed.

(** [read_request] when the peer closes inside the payload. *)
Lemma read_request_truncated (n : Z) (partial : pybytes) :
  0 <= n < 4294967296 ->
  Z.of_nat (List.length partial) < n ->
  read_request env (in_order (native_order env) (le_bytes n) ++ partial)
  = (Ok None, []).
Proof.
  intros Hn Hp. destruct (frame_in_prefix n Hn) as [Hl Hu].
  unfold read_request.
  replace 4 with (Z.of_nat (List.length (in_order (native_order env) (le_bytes n))))
    at 1 by (rewrite Hl; reflexivity).
  rewrite readexactly_app, Hl. cbn [Nat.eqb Z.of_nat Z.eqb].
  rewrite Hu. cbn [py_eqb py_index0].
  rewrite readexactly_short by exact Hp. reflexivity.
Qed.

End MoreFraming.

(** X15. When the peer closes before a whole length prefix has arrived
    (fewer than four octets left, none included), [handle_connection]
    returns without an error and without any effect. *)
Theorem short_prefix_closes
  (env : collaborators) (reader : pybytes) (w : world) :
  (List.length reader < 4)%nat ->
  handle_connection env reader w = Some (ConnectionClosed, w).
Proof.
  intros H. rewrite handle_connection_unfold. unfold read_request.
  rewrite readexactly_short by lia. reflexivity.
Qed.

Lemma short_prefix_closes_witness :
  handle_connection sample_env [5; 0; 0] world0 = Some (ConnectionClosed, world0).
Proof.
  apply (short_prefix_closes sample_env [5; 0; 0] world0). cbn [List.length]. lia.
Defined.

(** X16. When the peer closes inside a payload (the prefix announces [n]
    octets and fewer follow), [handle_connection] returns without an error
    and without any effect: the partial payload is dropped. *)
Theorem truncated_payload_closes
  (env : collaborators) (n : Z) (partial : pybytes) (w : world) :
  0 <= n < 4294967296 ->
  Z.of_nat (List.length partial) < n ->
  handle_connection env (in_order (native_order env) (le_bytes n) ++ partial) w
  = Some (ConnectionClosed, w).
Proof.
  intros Hn Hp. rewrite handle_connection_unfold.
  rewrite read_request_truncated by assumption. reflexivity.
Qed.

Lemma truncated_payload_closes_witness :
  handle_connection sample_env ([8; 0; 0; 0] ++ py "2/jp/a") world0
  = Some (ConnectionClosed, world0).
Proof.
  apply (truncated_payload_closes sample_env 8 (py "2/jp/a") world0);
    [lia | vm_compute; reflexivity].
Defined.

(** X17. A payload that is not valid UTF-8 is not isolated to its request:
    [UnicodeDecodeError] leaves [read_request] and [handle_connection],
    nothing is written and what follows on the reader is not read. *)
Theorem invalid_utf8_crashes
  (env : collaborators) (payload rest : pybytes) (w : world) :
  Z.of_nat (List.length payload) < 4294967296 ->
  utf8_decode payload = None ->
  handle_connection env (frame_in (native_order env) payload ++ rest) w
  = Some (Crashed UnicodeDecodeError, w).
Proof.
  intros Hlen Hd. rewrite handle_connection_unfold.
  rewrite read_request_frame_in by exact Hlen. rewrite Hd. reflexivity.
Qed.

Lemma invalid_utf8_crashes_witness :
  handle_connection sample_env
    (frame_in LittleEndian [0x31; 0x2F; 0x6A; 0x70; 0x2F; 0xFF] ++ frame (py "2/jp/a"))
    world0
  = Some (Crashed UnicodeDecodeError, world0).
Proof.
  apply (invalid_utf8_crashes sample_env [0x31; 0x2F; 0x6A; 0x70; 0x2F; 0xFF]
           (frame (py "2/jp/a")) world0);
    [vm_compute; reflexivity | reflexivity].
Defined.

Lemma handle_connection_eof (env : collaborators) (w : world) :
  handle_connection env [] w = Some (ConnectionClosed, w).
Proof. reflexivity. Qed.

(** X18. Requests are handled strictly in the order of their frames: on a
    reader that carries the frames of valid UTF-8 payloads and then ends,
    [handle_connection] does what handling the decoded payloads one after
    the other does, stops at the first one that raises, and otherwise
    returns when the reader is exhausted. *)
Theorem requests_handled_in_order (env : collaborators) (payloads : list pybytes) :
  forall (datas : list pystr) (w : world),
    Forall2 (fun data payload =>
               utf8_decode payload = Some data
               /\ Z.of_nat (List.length payload) < 4294967296) datas payloads ->
    handle_connection env (request_stream (native_order env) payloads) w
    = Some (served env datas w).
Proof.
  induction payloads as [|payload more IH]; intros datas w H;
    inversion H as [|data ? datas' ? [Hd Hl] Hmore]; subst.
  - apply handle_connection_eof.
  - unfold request_stream. cbn [map List.concat].
    rewrite handle_connection_unfold.
    rewrite read_request_frame_in by exact Hl. rewrite Hd.
    unfold served. cbn [handle_all]. unfold bind.
    destruct (handle_request env data w) as [[u|e] w']; [|reflexivity].
    apply (IH datas' w' Hmore).
Qed.

Lemma requests_handled_in_order_witness :
  handle_connection sample_env
    (request_stream LittleEndian [py "2/jp/a"; py "7//"; py "3/th/b"]) world0
  = Some (ConnectionClosed,
          wrote (frame (py "b"))
            (wrote empty_frame (wrote (frame (py "Toukyou")) world0))).
Proof.
  apply (requests_handled_in_order sample_env [py "2/jp/a"; py "7//"; py "3/th/b"]
           [py "2/jp/a"; py "7//"; py "3/th/b"] world0).
  repeat constructor.
Defined.

(** ** The shape of a payload *)

Lemma py_split_last (sep : Z) (a : pystr) :
  ~ In sep a -> forall n, py_split sep n a = [a].
Proof.
  induction a as [|c a IH]; intros Hn n; destruct n as [|m]; try reflexivity.
  cbn [py_split].
  destruct (Z.eqb_spec c sep) as [->|_]; [exfalso; apply Hn; left; reflexivity|].
  rewrite IH; [reflexivity|]. intros H. apply Hn. right. exact H.
Qed.

Lemma py_split_field (sep : Z) (n : nat) (a b : pystr) :
  ~ In sep a -> py_split sep (S n) (a ++ sep :: b) = a :: py_split sep n b.
Proof.
  induction a as [|c a IH]; intros Hn.
  - cbn [app py_split]. rewrite Z.eqb_refl. reflexivity.
  - cbn [app py_split].
    destruct (Z.eqb_spec c sep) as [->|_]; [exfalso; apply Hn; left; reflexivity|].
    rewrite IH; [reflexivity|]. intros H. apply Hn. right. exact H.
Qed.

(** X19. The wire form [id/cc/name] with no [/] inside the three fields
    is read back as exactly these fields, the country code among them. *)
Theorem three_field_payload
  (env : collaborators) (id cc name : pystr) (w : world) :
  no_slash id -> no_slash cc -> no_slash name ->
  parse_request env (id ++ 0x2F :: cc ++ 0x2F :: name) w = (Ok (id, cc, name), w).
Proof.
  intros Hi Hc Hn. unfold parse_request.
  rewrite py_split_field by exact Hi. rewrite py_split_field by exact Hc.
  rewrite py_split_last by exact Hn. reflexivity.
Qed.

Lemma three_field_payload_witness :
  parse_request sample_env (py "42" ++ 0x2F :: py "jp" ++ 0x2F :: [0x6771; 0x4EAC]) world0
  = (Ok (py "42", py "jp", [0x6771; 0x4EAC]), world0).
Proof.
  apply (three_field_payload sample_env (py "42") (py "jp") [0x6771; 0x4EAC] world0);
    unfold no_slash; cbn; intuition discriminate.
Defined.

(** X20. A payload with three or more [/] is always read as a coordinate
    request: the second and third field are the coordinates and all that
    follows the third [/] is the name, further [/] included.  So a payload
    [id/cc/name] whose name holds a [/] does not keep its country code. *)
Theorem four_field_payload
  (env : collaborators) (id lon lat name : pystr) (w : world) :
  no_slash id -> no_slash lon -> no_slash lat ->
  py_split 0x2F 3 (id ++ 0x2F :: lon ++ 0x2F :: lat ++ 0x2F :: name)
  = [id; lon; lat; name]
  /\ parse_request env (id ++ 0x2F :: lon ++ 0x2F :: lat ++ 0x2F :: name) w
     = match coordinate_country env lon lat name w with
       | (Ok cc, w') => (Ok (id, cc, name), w')
       | (Raise e, w') => (Raise e, w')
       end.
Proof.
  intros Hi Ho Ha.
  assert (Hs : py_split 0x2F 3 (id ++ 0x2F :: lon ++ 0x2F :: lat ++ 0x2F :: name)
               = [id; lon; lat; name]).
  { rewrite py_split_field by exact Hi. rewrite py_split_field by exact Ho.
    rewrite py_split_field by exact Ha. destruct name; reflexivity. }
  split; [exact Hs|]. apply parse_request_four. exact Hs.
Qed.

Lemma four_field_payload_witness :
  parse_request sample_env
    (py "9" ++ 0x2F :: py "jp" ++ 0x2F :: py "Shin" ++ 0x2F :: py "Osaka/Umeda") world0
  = (Ok (py "9", [], py "Osaka/Umeda"), world0).
Proof.
  destruct (four_field_payload sample_env (py "9") (py "jp") (py "Shin")
              (py "Osaka/Umeda") world0) as [_ H];
    [unfold no_slash; cbn; intuition discriminate ..|].
  rewrite H. reflexivity.
Defined.

(** ** The loop as a whole *)

Section MoreLoop.

Variable env : collaborators.

Lemma handle_request_writer (data : pystr) (w : world) :
  exists bs, writer (snd (handle_request env data w)) = writer w ++ bs.
Proof.
  pose proof (parse_request_world env data w) as [Hw _].
  unfold handle_request, bind.
  destruct (parse_request env data w) as [[[[id cc] name]|e] w1]; cbn [snd] in *.
  - destruct (answer_request_frame env id cc name w1)
      as [payload [prefix [w2 [Ha [Hw2 _]]]]].
    rewrite Ha. cbn [snd wrote writer]. exists (prefix ++ payload).
    rewrite Hw2, Hw. reflexivity.
  - exists []. rewrite app_nil_r. exact Hw.
Qed.

Lemma handle_loop_writer (fuel : nat) :
  forall (reader : pybytes) (w : world) (r : outcome * world),
    handle_loop env fuel reader w = Some r ->
    exists bs, writer (snd r) = writer w ++ bs.
Proof.
  induction fuel as [|fuel IH]; intros reader w r; cbn [handle_loop]; [discriminate|].
  destruct (read_request env reader) as [[[data|]|e] reader'].
  - pose proof (handle_request_writer data w) as [bs Hbs].
    destruct (handle_request env data w) as [[u|e] w']; cbn [snd] in Hbs.
    + intros H. destruct (IH reader' w' r H) as [bs' Hbs'].
      exists (bs ++ bs'). rewrite Hbs', Hbs, app_assoc. reflexivity.
    + intros H. assert (r = (Crashed e, w')) by congruence. subst r.
      exists bs. exact Hbs.
  - intros H. assert (r = (ConnectionClosed, w)) by congruence. subst r.
    exists []. cbn [snd]. rewrite app_nil_r. reflexivity.
  - intros H. assert (r = (Crashed e, w)) by congruence. subst r.
    exists []. cbn [snd]. rewrite app_nil_r. reflexivity.
Qed.

End MoreLoop.

(** X21. [handle_connection] comes to an end on every reader (each turn
    of its loop takes at least the four octets of a prefix off the reader),
    and it only ever adds to what was written to the peer. *)
Theorem handle_connection_ends
  (env : collaborators) (reader : pybytes) (w : world) :
  exists out w' bs,
    handle_connection env reader w = Some (out, w')
    /\ writer w' = writer w ++ bs.
Proof.
  destruct (handle_loop_total env (S (List.length reader)) reader w) as [[out w'] H];
    [unfold lt; apply le_n|].
  destruct (handle_loop_writer env _ reader w (out, w') H) as [bs Hbs].
  exists out, w', bs. split; [exact H|exact Hbs].
Qed.

(** ** What a reply can carry *)

Lemma utf8_encode_surrogate (text : pystr) (c : Z) :
  In c text -> is_surrogate c = true -> utf8_encode text = None.
Proof.
  intros Hin Hs. induction text as [|d r IH]; [contradiction|].
  cbn [utf8_encode]. destruct Hin as [->|Hin].
  - assert (E : utf8_encode_cp c = None).
    { unfold utf8_encode_cp. rewrite Hs.
      unfold is_surrogate in Hs. apply Bool.andb_true_iff in Hs.
      rewrite !Z.leb_le in Hs.
      replace (c <? 0) with false by (symmetry; apply Z.ltb_ge; lia).
      replace (c <? 0x80) with false by (symmetry; apply Z.ltb_ge; lia).
      replace (c <? 0x800) with false by (symmetry; apply Z.ltb_ge; lia).
      replace (c <? 0x10000) with true by (symmetry; apply Z.ltb_lt; lia).
      reflexivity. }
    rewrite E. reflexivity.
  - rewrite (IH Hin). destruct (utf8_encode_cp d); reflexivity.
Qed.

(** X22. A text from the dispatcher that holds a surrogate code point
    cannot be encoded: the request is answered with the empty reply and the
    [UnicodeEncodeError] is logged; nothing of the text reaches the peer. *)
Theorem unencodable_reply_empty
  (env : collaborators) (id cc name text : pystr) (c : Z) (w w0 : world) :
  name <> [] ->
  transcript env cc name w = (Ok (PyStr text), w0) ->
  In c text -> is_surrogate c = true ->
  answer_request env id cc name w
  = (Ok tt, wrote empty_frame (logged (RequestError id UnicodeEncodeError) w0)).
Proof.
  intros Hn Ht Hin Hs. unfold answer_request, try_except, bind.
  replace (pystr_eqb name []) with false
    by (unfold pystr_eqb; destruct (list_eq_dec Z.eq_dec name []); congruence).
  cbn [negb]. rewrite Ht. unfold send_reply at 1.
  rewrite (utf8_encode_surrogate text c Hin Hs).
  unfold lift, stderr_write. rewrite send_reply_empty. reflexivity.
Qed.

Lemma unencodable_reply_empty_witness :
  answer_request surrogate_env (py "4") [] (py "a") world0
  = (Ok tt, wrote empty_frame (logged (RequestError (py "4") UnicodeEncodeError) world0)).
Proof.
  apply (unencodable_reply_empty surrogate_env (py "4") [] (py "a")
           (py "a" ++ [0xD800]) 0xD800 world0 world0);
    [discriminate | reflexivity | right; left; reflexivity | reflexivity].
Defined.

(** X23. The request id never reaches the peer: two requests that differ
    in their id only get the same octets written. *)
Theorem reply_independent_of_id
  (env : collaborators) (id id' cc name : pystr) (w : world) :
  writer (snd (answer_request env id cc name w))
  = writer (snd (answer_request env id' cc name w)).
Proof.
  unfold answer_request, try_except, bind.
  destruct (negb (pystr_eqb name [])).
  - destruct (transcript env cc name w) as [[v|e] w0].
    + destruct v as [| z |text| items];
        try (unfold stderr_write; rewrite !send_reply_empty; reflexivity).
      unfold send_reply at 1 3.
      destruct (utf8_encode text) as [data|].
      * destruct (struct_pack_I (native_order env) (Z.of_nat (List.length data)));
          [reflexivity|].
        unfold lift, stderr_write. rewrite !send_reply_empty. reflexivity.
      * unfold lift, stderr_write. rewrite !send_reply_empty. reflexivity.
    + unfold stderr_write. rewrite !send_reply_empty. reflexivity.
  - reflexivity.
Qed.
